(** * heksa: the record rendering engine of [pkg/reader/reader.go]

    A shallow embedding of [Reader] (construction, offset formatting,
    record rendering and header rendering) together with the fragment of
    Go's [fmt] and [unicode/utf8] packages that the reader calls.

    Conventions.
    - Go [int], [int64], [uint64] and [byte] values are [Z]; where the
      source relies on a width the wrap-around is written out.
    - Go strings are byte strings: Rocq [string].  A literal such as
      ["‡"] denotes its UTF-8 bytes, exactly as in the Go source.
    - [float64] is [spec_float] at precision 53 and maximal exponent 1024,
      with the IEEE 754 operations of [SpecFloat].
    - [strings.Builder] is the sequence of [WriteString] calls made so far;
      [String()] flattens it. *)

From Stdlib Require Import ZArith Lia Bool List Ascii String.
From Stdlib Require Import Floats.SpecFloat.
From stdpp Require Import base decidable countable option list gmap.

Local Open Scope string_scope.
Local Open Scope Z_scope.

(** ** Go's [fmt] package, as far as the reader uses it *)

Module Fmt.

(** [const ldigits = "0123456789abcdefx"] indexed by a digit below 16. *)
Definition ldigits : string := "0123456789abcdefx".

Definition digit (d : Z) : ascii :=
  match String.get (Z.to_nat d) ldigits with
  | Some c => c
  | None => "?"%char
  end.

(** The digit loop of [fmt.fmtInteger]: digits are produced from the least
    significant one and stored right to left.  A [uint64] has at most 64
    digits in any base from 2 up, which is what the fuel stands for. *)
Fixpoint digitsLoop (fuel : nat) (base u : Z) (acc : string) : string :=
  match fuel with
  | O => acc
  | S fuel' =>
      if u <? base then String (digit u) acc
      else digitsLoop fuel' base (u / base) (String (digit (u mod base)) acc)
  end.

Definition digits (base u : Z) : string := digitsLoop 64 base u "".

Fixpoint zeros (n : nat) : string :=
  match n with
  | O => ""
  | S n' => String "0"%char (zeros n')
  end.

Fixpoint spaces (n : nat) : string :=
  match n with
  | O => ""
  | S n' => String " "%char (spaces n')
  end.

(** Left padding of [s] up to [width] bytes ([fmt.pad] without the minus
    flag; every string padded here is ASCII). *)
Definition padLeft (fill : nat -> string) (width : Z) (s : string) : string :=
  fill (Z.to_nat (width - Z.of_nat (String.length s))) ++ s.

(** [%x], [%d], [%o], [%b] of an integer [v], optionally with the [0] flag
    and a width: [fmtInteger] turns a zero-padded width into a precision,
    one less when a sign is printed. *)
Definition fmtInteger (base : Z) (zeroWidth : option Z) (v : Z) : string :=
  let negative := v <? 0 in
  let u := Z.abs v in
  let prec :=
    match zeroWidth with
    | Some w => if negative then w - 1 else w
    | None => 0
    end in
  let body := padLeft zeros prec (digits base u) in
  if negative then String "-"%char body else body.

(** *** [unicode/utf8] *)

Definition byteOf (z : Z) : ascii := ascii_of_N (Z.to_N (z mod 256)).

Definition RuneError : Z := 65533.

(** [utf8.AppendRune]: surrogates and values outside Unicode are encoded
    as [RuneError]. *)
Definition encodeRune (r : Z) : string :=
  if (0 <=? r) && (r <=? 127) then
    String (byteOf r) ""
  else if (0 <=? r) && (r <=? 2047) then
    String (byteOf (Z.lor 192 (Z.shiftr r 6)))
   (String (byteOf (Z.lor 128 (Z.land r 63))) "")
  else if (r <? 0) || (1114111 <? r) || ((55296 <=? r) && (r <=? 57343)) then
    String (byteOf 239) (String (byteOf 191) (String (byteOf 189) ""))
  else if r <=? 65535 then
    String (byteOf (Z.lor 224 (Z.shiftr r 12)))
   (String (byteOf (Z.lor 128 (Z.land (Z.shiftr r 6) 63)))
   (String (byteOf (Z.lor 128 (Z.land r 63))) ""))
  else
    String (byteOf (Z.lor 240 (Z.shiftr r 18)))
   (String (byteOf (Z.lor 128 (Z.land (Z.shiftr r 12) 63)))
   (String (byteOf (Z.lor 128 (Z.land (Z.shiftr r 6) 63)))
   (String (byteOf (Z.lor 128 (Z.land r 63))) ""))).

(** [%c] of an integer: the UTF-8 encoding of that code point. *)
Definition fmtC (r : Z) : string := encodeRune r.

(** A byte [10xxxxxx] continues a multi-byte sequence. *)
Definition isContinuation (c : ascii) : bool :=
  Z.land (Z.of_N (N_of_ascii c)) 192 =? 128.

(** [utf8.RuneCountInString] on well-formed UTF-8: one rune per byte that
    does not continue a sequence.  This is the display width of a text
    made of single-column characters. *)
Fixpoint RuneCount (s : string) : Z :=
  match s with
  | EmptyString => 0
  | String c s' => (if isContinuation c then 0 else 1) + RuneCount s'
  end.

(** *** Floating point *)

Definition float64 := spec_float.

(** The conversion [float64(v)] of an integer and the constants of the
    source: round to nearest, ties to even. *)
Definition float64_of_int (v : Z) : float64 := binary_normalize 53 1024 v 0 false.
Definition float64_mul : float64 -> float64 -> float64 := SFmul 53 1024.
Definition float64_div : float64 -> float64 -> float64 := SFdiv 53 1024.

(** [strconv.AppendFloat(x, 'f', prec, 64)] of a finite magnitude
    [m * 2^e]: the exact value is scaled by [10^prec] and rounded to the
    nearest integer, ties to even; the last [prec] digits are the
    fraction. *)
Definition roundScaled (m : positive) (e prec : Z) : Z :=
  let n := Z.pos m * 10 ^ prec in
  if 0 <=? e then n * 2 ^ e
  else
    let d := 2 ^ (- e) in
    let q := n / d in
    let r := n mod d in
    match 2 * r ?= d with
    | Lt => q
    | Gt => q + 1
    | Eq => if Z.even q then q else q + 1
    end.

Definition fixedDigits (n prec : Z) : string :=
  let int := digits 10 (n / 10 ^ prec) in
  if prec =? 0 then int
  else int ++ "." ++ padLeft zeros prec (digits 10 (n mod 10 ^ prec)).

(** [%0w.pf]: [fmt.fmtFloat] with the zero flag.  Infinities and NaN are
    padded with spaces, never with zeros; a sign goes before the zeros. *)
Definition fmtFloat (width prec : Z) (x : float64) : string :=
  let signed (s : bool) (body : string) :=
    if s then String "-"%char (padLeft zeros (width - 1) body)
    else padLeft zeros width body in
  match x with
  | S754_nan => padLeft spaces width "NaN"
  | S754_infinity s => padLeft spaces width (if s then "-Inf" else "+Inf")
  | S754_zero s => signed s (fixedDigits 0 prec)
  | S754_finite s m e => signed s (fixedDigits (roundScaled m e prec) prec)
  end.

(** *** [Sprintf] with one operand *)

Inductive operand :=
  | OpInt (v : Z)
  | OpFloat (x : float64).

Definition isDigit (c : ascii) : bool :=
  let n := Z.of_N (N_of_ascii c) in (48 <=? n) && (n <=? 57).

(** [fmt.parsenum]: the decimal number at the front of a format. *)
Fixpoint parsenum (acc : option Z) (s : string) : option Z * string :=
  match s with
  | String c s' =>
      if isDigit c
      then parsenum (Some (10 * default 0 acc + (Z.of_N (N_of_ascii c) - 48))) s'
      else (acc, s)
  | EmptyString => (acc, s)
  end.

(** The formats the reader builds: [%0<w>x], [%0<w>d], [%0<w>o] applied to
    an integer and [%0<w>.<p>f%%] applied to a float.  Any other pair of
    format and operand is outside this model: [None]. *)
Definition Sprintf (format : string) (a : operand) : option string :=
  match format with
  | String "%"%char (String "0"%char rest) =>
      match parsenum None rest, a with
      | (Some w, "x"), OpInt v => Some (fmtInteger 16 (Some w) v)
      | (Some w, "d"), OpInt v => Some (fmtInteger 10 (Some w) v)
      | (Some w, "o"), OpInt v => Some (fmtInteger 8 (Some w) v)
      | (Some w, String "."%char rest'), OpFloat x =>
          match parsenum None rest' with
          | (Some p, "f%%") => Some (fmtFloat w p x ++ "%")
          | _ => None
          end
      | _, _ => None
      end
  | _ => None
  end.

End Fmt.


(** ** The types of package [reader] *)

(** The byte formatters and offset formatters that [reader.go] switches
    on.  Their declarations live in a file of the package that is not part
    of this development; the constructors are the constants the reader
    names.  A value of the Go type [OffsetFormatter] other than these four
    constants is outside this model: in the source it matches no case of
    the first switch of [New], which then panics with
    [couldn't find width??]; the model keeps that branch in [deriveOne]. *)
Inductive ByteFormatter :=
  | ViewHex | ViewDec | ViewOct | ViewBit | ViewASCII
  | ViewHexWithASCII | ViewDecWithASCII.

Inductive OffsetFormatter :=
  | OffsetHex | OffsetDec | OffsetOct | OffsetPercent.

#[global] Instance ByteFormatter_eq_dec : EqDecision ByteFormatter.
Proof. solve_decision. Defined.

#[global] Instance OffsetFormatter_eq_dec : EqDecision OffsetFormatter.
Proof. solve_decision. Defined.

Definition OffsetFormatter_code (f : OffsetFormatter) : nat :=
  match f with
  | OffsetHex => 0 | OffsetDec => 1 | OffsetOct => 2 | OffsetPercent => 3
  end%nat.

Definition OffsetFormatter_decode (n : nat) : OffsetFormatter :=
  match n with
  | 0 => OffsetHex | 1 => OffsetDec | 2 => OffsetOct | _ => OffsetPercent
  end%nat.

#[global] Instance OffsetFormatter_countable : Countable OffsetFormatter.
Proof.
  apply (inj_countable' OffsetFormatter_code OffsetFormatter_decode).
  by intros [].
Defined.

(** Go's [error] values: [io.EOF] and any other failure of the source. *)
Inductive error :=
  | EOF
  | IOError (msg : string).

(** [iface.ReadSeekerCloser] over a source state [S].  [Seek] returns the
    new position; [Read] receives the buffer [p] and returns it as the call
    left it, with the count and the error. *)
Class ReadSeekerCloser (S : Type) := {
  Seek : S -> Z -> Z -> S * (Z * option error);
  ReadInto : S -> list Z -> S * (list Z * Z * option error);
  Close : S -> S * option error
}.

Definition SeekCurrent : Z := 1.

(** One [WriteString] on the builder: a color escape of [colors] or any
    other text. *)
Inductive write :=
  | WColor (s : string)
  | WText (s : string).

Definition written (w : write) : string :=
  match w with WColor s => s | WText s => s end.

(** [strings.Builder.String]. *)
Definition flatten (ws : list write) : string :=
  fold_right (fun w acc => written w ++ acc) "" ws.

(** The text of a run of writes without its color escapes, and its width
    in characters. *)
Definition textOf (ws : list write) : string :=
  fold_right (fun w acc => match w with WText s => s ++ acc | WColor _ => acc end) "" ws.

Definition textWidth (ws : list write) : Z := Fmt.RuneCount (textOf ws).

Definition colorsOf (ws : list write) : list string :=
  omap (fun w => match w with WColor s => Some s | WText _ => None end) ws.

(** Package [color], which is not part of this development: the escape
    prefix, the color type with its [String] method and the three greys
    the reader names. *)
Class ColorPackage := {
  ColorCode : Type;
  SetForeground : string;
  AnsiColor_String : ColorCode -> string;
  ColorGrey93_eeeeee : ColorCode;
  ColorGrey35_585858 : ColorCode;
  ColorGrey100_ffffff : ColorCode
}.

Record AnsiColor `{ColorPackage} := { Color : ColorCode }.

Record colors `{ColorPackage} := {
  palette : list string;
  SplitterColor : AnsiColor;
  OffsetColor : AnsiColor;
  splitterBreak : string;
  offsetBreak : string;
  specialBreak : string;
  hilightBreak : string
}.

Record Reader `{ColorPackage} (S : Type) := {
  r : S;
  charFormatters : list ByteFormatter;
  charFormatterCount : Z;
  offsetFormatter : list OffsetFormatter;
  offsetFormatterCount : Z;
  fileSize : Z;
  ReadBytes : Z;
  sb : list write;
  Splitter : string;
  showHeader : bool;
  offsetFormatterFormat : gmap OffsetFormatter string;
  offsetFormatterWidth : gmap OffsetFormatter Z;
  rcolors : colors
}.

Arguments r {_ _} _.
Arguments charFormatters {_ _} _.
Arguments charFormatterCount {_ _} _.
Arguments offsetFormatter {_ _} _.
Arguments offsetFormatterCount {_ _} _.
Arguments fileSize {_ _} _.
Arguments ReadBytes {_ _} _.
Arguments sb {_ _} _.
Arguments Splitter {_ _} _.
Arguments showHeader {_ _} _.
Arguments offsetFormatterFormat {_ _} _.
Arguments offsetFormatterWidth {_ _} _.
Arguments rcolors {_ _} _.

(** ** The reader *)

Section Reader.

Context `{ColorPackage} {S : Type} `{ReadSeekerCloser S}.

(** [asciiByteToChar], the package's table from a byte to the character
    shown for it; declared outside [reader.go]. *)
Variable asciiByteToChar : Z -> Z.

Abbreviation Reader := (Reader S).

(** Outcome of a call that may [panic]. *)
Inductive outcome (A : Type) :=
  | Returns (a : A)
  | Panics (msg : string).
Arguments Returns {A} a.
Arguments Panics {A} msg.

(** *** Field updates *)

Definition withSource (rd : Reader) (s : S) : Reader :=
  {| r := s; charFormatters := charFormatters rd;
     charFormatterCount := charFormatterCount rd;
     offsetFormatter := offsetFormatter rd;
     offsetFormatterCount := offsetFormatterCount rd;
     fileSize := fileSize rd; ReadBytes := ReadBytes rd; sb := sb rd;
     Splitter := Splitter rd; showHeader := showHeader rd;
     offsetFormatterFormat := offsetFormatterFormat rd;
     offsetFormatterWidth := offsetFormatterWidth rd; rcolors := rcolors rd |}.

Definition withReadBytes (rd : Reader) (n : Z) : Reader :=
  {| r := r rd; charFormatters := charFormatters rd;
     charFormatterCount := charFormatterCount rd;
     offsetFormatter := offsetFormatter rd;
     offsetFormatterCount := offsetFormatterCount rd;
     fileSize := fileSize rd; ReadBytes := n; sb := sb rd;
     Splitter := Splitter rd; showHeader := showHeader rd;
     offsetFormatterFormat := offsetFormatterFormat rd;
     offsetFormatterWidth := offsetFormatterWidth rd; rcolors := rcolors rd |}.

Definition withBuilder (rd : Reader) (ws : list write) : Reader :=
  {| r := r rd; charFormatters := charFormatters rd;
     charFormatterCount := charFormatterCount rd;
     offsetFormatter := offsetFormatter rd;
     offsetFormatterCount := offsetFormatterCount rd;
     fileSize := fileSize rd; ReadBytes := ReadBytes rd; sb := ws;
     Splitter := Splitter rd; showHeader := showHeader rd;
     offsetFormatterFormat := offsetFormatterFormat rd;
     offsetFormatterWidth := offsetFormatterWidth rd; rcolors := rcolors rd |}.

(** [r.sb.Reset()], [r.sb.WriteString(s)] and [r.sb.String()]. *)
Definition sbReset (rd : Reader) : Reader := withBuilder rd [].
Definition sbWrite (rd : Reader) (ws : list write) : Reader :=
  withBuilder rd (sb rd ++ ws).
Definition sbString (rd : Reader) : string := flatten (sb rd).

(** *** [New] *)

(** [fmt.Sprintf(`%s%s`, color.SetForeground, c)]. *)
Definition foreground (c : AnsiColor) : string :=
  SetForeground ++ AnsiColor_String (Color c).

(** [len(fmt.Sprintf(`%x`, filesize))]. *)
Definition hexLen (filesize : Z) : Z :=
  Z.of_nat (String.length (Fmt.fmtInteger 16 None filesize)).

(** The first [switch] of the loop over the offset formatters. *)
Definition setWidth (filesize : Z) (f : OffsetFormatter)
    (widths : gmap OffsetFormatter Z) : gmap OffsetFormatter Z :=
  match f with
  | OffsetHex => <[f := hexLen filesize]> widths
  | OffsetDec => <[f := hexLen filesize]> widths
  | OffsetOct => <[f := hexLen filesize]> widths
  | OffsetPercent => <[f := 8]> widths
  end.

(** The second [switch]: [fmt.Sprintf(`%%0%dx`, width)] and its like. *)
Definition printfFormat (f : OffsetFormatter) (width : Z) : string :=
  match f with
  | OffsetHex => "%0" ++ Fmt.fmtInteger 10 None width ++ "x"
  | OffsetDec => "%0" ++ Fmt.fmtInteger 10 None width ++ "d"
  | OffsetOct => "%0" ++ Fmt.fmtInteger 10 None width ++ "o"
  | OffsetPercent => "%07.3f%%"
  end.

(** One iteration of [for _, f := range reader.offsetFormatter]. *)
Definition deriveOne (filesize : Z)
    (acc : outcome (gmap OffsetFormatter string * gmap OffsetFormatter Z))
    (f : OffsetFormatter)
    : outcome (gmap OffsetFormatter string * gmap OffsetFormatter Z) :=
  match acc with
  | Panics msg => Panics msg
  | Returns (formats, widths) =>
      match widths !! f with
      | Some _ => Returns (formats, widths)
      | None =>
          let widths := setWidth filesize f widths in
          match widths !! f with
          | None => Panics "couldn't find width??"
          | Some width =>
              Returns (<[f := printfFormat f width]> formats, widths)
          end
      end
  end.

(** [formatters] is [None] for the nil slice. *)
Definition New (src : S) (offsetFormatter : list OffsetFormatter)
    (formatters : option (list ByteFormatter)) (palette : list AnsiColor)
    (showHeader : bool) (filesize : Z) : outcome Reader :=
  match formatters with
  | None => Panics "nil formatter"
  | Some formatters =>
      let calcpalette := foreground <$> palette in
      let SplitterColor := {| Color := ColorGrey93_eeeeee |} in
      let OffsetColor := {| Color := ColorGrey93_eeeeee |} in
      match fold_left (deriveOne filesize) offsetFormatter (Returns (∅, ∅)) with
      | Panics msg => Panics msg
      | Returns (formats, widths) =>
          Returns
            {| r := src;
               fileSize := filesize;
               charFormatters := formatters;
               offsetFormatter := offsetFormatter;
               ReadBytes := 0;
               sb := [];
               Splitter := "┊";
               charFormatterCount := Z.of_nat (length formatters);
               offsetFormatterCount := Z.of_nat (length offsetFormatter);
               showHeader := showHeader;
               offsetFormatterFormat := formats;
               offsetFormatterWidth := widths;
               rcolors :=
                 {| palette := calcpalette;
                    SplitterColor := SplitterColor;
                    OffsetColor := OffsetColor;
                    specialBreak := foreground {| Color := ColorGrey35_585858 |};
                    hilightBreak := foreground {| Color := ColorGrey100_ffffff |};
                    splitterBreak := foreground SplitterColor;
                    offsetBreak := foreground OffsetColor |} |}
      end
  end.

(** *** Offsets *)

(** [formatOffset]: the format is looked up in the map (the zero value,
    the empty format, when absent) and applied to the offset or to the
    percentage. *)
Definition formatOffset (rd : Reader) (formatter : OffsetFormatter)
    (offset : Z) : option Reader :=
  let format := default "" (offsetFormatterFormat rd !! formatter) in
  match formatter with
  | OffsetPercent =>
      let percent :=
        Fmt.float64_div
          (Fmt.float64_mul (Fmt.float64_of_int offset) (Fmt.float64_of_int 100))
          (Fmt.float64_of_int (fileSize rd)) in
      s ← Fmt.Sprintf format (Fmt.OpFloat percent);
      Some (sbWrite rd [WText s])
  | _ =>
      s ← Fmt.Sprintf format (Fmt.OpInt offset);
      Some (sbWrite rd [WText s])
  end.

Definition getoffsetLeft (rd : Reader) (offset : Z) : option (Reader * string) :=
  let rd := sbReset rd in
  if 0 <? offsetFormatterCount rd then
    let rd := sbWrite rd [WColor (offsetBreak (rcolors rd))] in
    f ← offsetFormatter rd !! 0%nat;
    rd ← formatOffset rd f offset;
    let rd := sbWrite rd [WColor (splitterBreak (rcolors rd))] in
    let rd := sbWrite rd [WText (Splitter rd)] in
    Some (rd, sbString rd)
  else Some (rd, sbString rd).

Definition getoffsetRight (rd : Reader) (offset : Z) : option (Reader * string) :=
  let rd := sbReset rd in
  if 1 <? offsetFormatterCount rd then
    let rd := sbWrite rd [WColor (splitterBreak (rcolors rd))] in
    let rd := sbWrite rd [WText (Splitter rd)] in
    let rd := sbWrite rd [WColor (offsetBreak (rcolors rd))] in
    f ← offsetFormatter rd !! 1%nat;
    rd ← formatOffset rd f offset;
    Some (rd, sbString rd)
  else Some (rd, sbString rd).

(** *** [Read] *)

(** [tmp[i]] on the 16-byte buffer and [r.colors.palette[b]]. *)
Definition byteAt (tmp : list Z) (i : Z) : Z := default 0 (tmp !! Z.to_nat i).

Definition paletteAt (rd : Reader) (b : Z) : string :=
  default "" (palette (rcolors rd) !! Z.to_nat b).

(** [if i == 0 || (i > 0 && tmp[i] != tmp[i-1])]: the color [c] is written
    on the first column and on a change of value. *)
Definition changed (tmp : list Z) (i : Z) : bool :=
  (i =? 0) || ((0 <? i) && negb (byteAt tmp i =? byteAt tmp (i - 1))).

Definition writeColor (tmp : list Z) (i : Z) (c : string) : list write :=
  if changed tmp i then [WColor c] else [].

(** The [switch byteFormatterType] of the branch [rb > i], for the byte
    [b = tmp[i]]. *)
Definition writePresent (rd : Reader) (f : ByteFormatter) (b : Z) : list write :=
  match f with
  | ViewHex => [WText (Fmt.fmtInteger 16 (Some 2) b)]
  | ViewDec => [WText (Fmt.fmtInteger 10 (Some 3) b)]
  | ViewOct => [WText (Fmt.fmtInteger 8 (Some 3) b)]
  | ViewBit => [WText (Fmt.fmtInteger 2 (Some 8) b)]
  | ViewASCII => [WText (Fmt.fmtC (asciiByteToChar b))]
  | ViewHexWithASCII =>
      [WColor (paletteAt rd b);
       WText (Fmt.fmtInteger 16 (Some 2) b ++ " ");
       WColor (specialBreak (rcolors rd));
       WText "[";
       WColor (hilightBreak (rcolors rd));
       WText (Fmt.fmtC (asciiByteToChar b));
       WColor (specialBreak (rcolors rd));
       WText "]"]
  | ViewDecWithASCII =>
      [WColor (paletteAt rd b);
       WText (Fmt.fmtInteger 10 (Some 3) b ++ " ");
       WColor (specialBreak (rcolors rd));
       WText "[";
       WColor (hilightBreak (rcolors rd));
       WText (Fmt.fmtC (asciiByteToChar b));
       WColor (specialBreak (rcolors rd));
       WText "]"]
  end.

(** The [switch byteFormatterType] of the branch without data. *)
Definition writePadding (f : ByteFormatter) : list write :=
  match f with
  | ViewHex => [WText "‡‡"]
  | ViewDec | ViewOct => [WText "‡‡‡"]
  | ViewASCII => [WText "‡"]
  | ViewHexWithASCII => [WText "‡‡‡‡‡‡"]
  | ViewDecWithASCII => [WText "‡‡‡‡‡‡‡"]
  | ViewBit => []
  end.

(** [if i < 15 { switch ... case ViewASCII: continue; default: " " }]. *)
Definition writeSpace (f : ByteFormatter) (i : Z) : list write :=
  if i <? 15 then
    match f with
    | ViewASCII => []
    | _ => [WText " "]
    end
  else [].

(** The body of [for i := 0; i < 16; i++]. *)
Definition column (rd : Reader) (f : ByteFormatter) (rb : Z) (tmp : list Z)
    (i : Z) : list write :=
  (if i =? 8 then [WText " "] else []) ++
  (if rb >? i then
     writeColor tmp i (paletteAt rd (byteAt tmp i)) ++
     writePresent rd f (byteAt tmp i) ++ writeSpace f i
   else
     writeColor tmp i (paletteAt rd 0) ++
     writePadding f ++ writeSpace f i).

Definition columns : list Z := Z.of_nat <$> seq 0 16.

(** The body of [for didx, byteFormatterType := range r.charFormatters]. *)
Definition block (rd : Reader) (rb : Z) (tmp : list Z) (didx : Z)
    (f : ByteFormatter) : list write :=
  (columns ≫= column rd f rb tmp) ++
  (if didx <? charFormatterCount rd - 1
   then [WColor (splitterBreak (rcolors rd)); WText (Splitter rd)]
   else []).

Definition blocks (rd : Reader) (rb : Z) (tmp : list Z) : list write :=
  mjoin (imap (fun didx f => block rd rb tmp (Z.of_nat didx) f) (charFormatters rd)).

(** [Read]: the reader after the call, the line and the error.  [None]
    stands for a call that has no result in this model: an index out of
    range or a [Sprintf] outside the modelled formats. *)
Definition Read (rd : Reader) : option (Reader * (string * option error)) :=
  let '(src, (offset, err)) := Seek (r rd) 0 SeekCurrent in
  let rd := withSource rd src in
  match err with
  | Some e => Some (rd, ("", Some e))
  | None =>
      '(rd, offsetLeft) ← getoffsetLeft rd offset;
      '(rd, offsetRight) ← getoffsetRight rd offset;
      let rd := sbReset rd in
      let rd := sbWrite rd [WText offsetLeft] in
      let '(src, (p, rb, err)) := ReadInto (r rd) (replicate 16 0) in
      let rd := withSource rd src in
      let tmp := resize 16 0 p in
      match err with
      | Some e => Some (rd, ("", Some e))
      | None =>
          let rd := withReadBytes rd ((ReadBytes rd + rb) mod 2 ^ 64) in
          let rd := sbWrite rd (blocks rd rb tmp) in
          let rd := sbWrite rd [WText offsetRight] in
          Some (rd, (sbString rd, None))
      end
  end.

(** *** The header *)

Fixpoint repeatString (s : string) (n : nat) : string :=
  match n with
  | O => ""
  | Datatypes.S n' => s ++ repeatString s n'
  end.

(** [offsetHeader]: a missing width is the zero value. *)
Definition offsetHeader (rd : Reader) (otype : OffsetFormatter) : string :=
  let width := default 0 (offsetFormatterWidth rd !! otype) in
  repeatString "_" (Z.to_nat width).

(** One label of [header], for the column [i]. *)
Definition headerColumn (l : Z) (format : string) (i : Z) : option string :=
  label ← Fmt.Sprintf format (Fmt.OpInt i);
  Some ((if i =? 8 then " " else "") ++ label ++
        (if (1 <? l) && (i <? 15) then " " else "")).

Definition header (l : Z) : option string :=
  let format := "%0" ++ Fmt.fmtInteger 10 None l ++ "x" in
  fold_left
    (fun out i => out ← out; c ← headerColumn l format i; Some (out ++ c))
    columns (Some "").

(** The [switch dplay] of [Header]. *)
Definition headerBlock (dplay : ByteFormatter) : option string :=
  match dplay with
  | ViewHex => header 2
  | ViewASCII => header 1
  | ViewDec | ViewOct => header 3
  | ViewBit => header 8
  | ViewHexWithASCII | ViewDecWithASCII => Some ""
  end.

Definition Header (rd : Reader) : option string :=
  if negb (showHeader rd) then Some ""
  else
    left ←
      (if 0 <? offsetFormatterCount rd then
         f ← offsetFormatter rd !! 0%nat;
         Some (offsetBreak (rcolors rd) ++ offsetHeader rd f ++
               splitterBreak (rcolors rd) ++ Splitter rd)
       else Some "");
    body ←
      fold_left
        (fun out '(didx, dplay) =>
           out ← out;
           h ← headerBlock dplay;
           Some (out ++ offsetBreak (rcolors rd) ++ h ++
                 (if Z.of_nat didx <? charFormatterCount rd - 1
                  then splitterBreak (rcolors rd) ++ Splitter rd else "")))
        (imap pair (charFormatters rd)) (Some left);
    right ←
      (if 1 <? offsetFormatterCount rd then
         f ← offsetFormatter rd !! 1%nat;
         Some (splitterBreak (rcolors rd) ++ Splitter rd ++
               offsetBreak (rcolors rd) ++ offsetHeader rd f)
       else Some "");
    Some (body ++ right ++ String "010"%char "").

End Reader.

Arguments Returns {A} a.
Arguments Panics {A} msg.

(** ** The command *)

Section Command.

Context `{ColorPackage} {S : Type} `{ReadSeekerCloser S}.
Variable asciiByteToChar : Z -> Z.

(** The palette loop of [getParams]: [for i := uint8(0); i < 255; i++],
    with the default of the table for a byte without an entry.  The array
    starts at the zero value [zero] of the color type. *)
Definition initPalette {C : Type} (zero : C) (defaultCharacterColors : gmap Z C)
    (defaultColor : C) : list C :=
  fold_left
    (fun palette i =>
       <[Z.to_nat i := default defaultColor (defaultCharacterColors !! i)]> palette)
    (Z.of_nat <$> seq 0 255) (replicate 256 zero).

(** How the dump loop of [main] ends: by a [break], or by [os.Exit(1)]
    after a failed read. *)
Inductive ending :=
  | Break
  | Exit1 (e : error).

(** The loop [for { s, err := r.Read() ... }] of [main]: the reader, the
    lines printed so far and the limit.  [None] when the fuel does not
    reach the end of the loop, or a call of [Read] has no result. *)
Fixpoint dump (fuel : nat) (rd : Reader S) (limit : Z) (printed : list string)
    : option (Reader S * list string * ending) :=
  match fuel with
  | O => None
  | Datatypes.S fuel' =>
      '(rd, (s, err)) ← Read asciiByteToChar rd;
      match err with
      | Some EOF => Some (rd, printed, Break)
      | Some e => Some (rd, printed, Exit1 e)
      | None =>
          let printed := (printed ++ [s])%list in
          if (0 <? limit) && (limit <=? ReadBytes rd)
          then Some (rd, printed, Break)
          else dump fuel' rd limit printed
      end
  end.

End Command.

(** ** Notions used to state the properties *)

(** The widths the specification declares for the seven byte formatters. *)
Definition declaredWidth (f : ByteFormatter) : Z :=
  match f with
  | ViewHex => 2
  | ViewDec => 3
  | ViewOct => 3
  | ViewBit => 8
  | ViewASCII => 1
  | ViewHexWithASCII => 6
  | ViewDecWithASCII => 7
  end.

(** The two formatters that show a byte twice, as a number and as a
    character. *)
Definition withASCII (f : ByteFormatter) : bool :=
  match f with
  | ViewHexWithASCII | ViewDecWithASCII => true
  | _ => false
  end.

(** The number of hexadecimal digits needed to represent [n >= 0]. *)
Definition hexDigits (n : Z) : Z :=
  if n =? 0 then 1 else Z.log2 n / 4 + 1.

Section Notions.

Context `{ColorPackage} {S : Type} `{ReadSeekerCloser S}.

(** What [formatOffset] appends to an empty builder. *)
Definition offsetText (rd : Reader S) (f : OffsetFormatter) (offset : Z)
    : option string :=
  rd' ← formatOffset (sbReset rd) f offset; Some (sbString rd').

(** The state [New] leaves the offset tables in, and every later call
    keeps: the count is the length of the list, and each configured
    formatter has the format [New] derives from some width. *)
Definition configured (rd : Reader S) : Prop :=
  offsetFormatterCount rd = Z.of_nat (length (offsetFormatter rd)) /\
  forall f, f ∈ offsetFormatter rd ->
    exists w, 1 <= w <= 65 /\
      offsetFormatterFormat rd !! f = Some (printfFormat f w).

(** The width [New] derives for a formatter. *)
Definition derivedWidth (filesize : Z) (f : OffsetFormatter) : Z :=
  match f with
  | OffsetPercent => 8
  | _ => hexLen filesize
  end.

(** The two tables of [New] agree with [derivedWidth]. *)
Definition derivedTables (filesize : Z)
    (formats : gmap OffsetFormatter string) (widths : gmap OffsetFormatter Z) : Prop :=
  forall f w, widths !! f = Some w ->
    w = derivedWidth filesize f /\ formats !! f = Some (printfFormat f w).

(** The base in which a formatter prints the offset. *)
Definition offsetBase (f : OffsetFormatter) : Z :=
  match f with
  | OffsetHex => 16
  | OffsetDec => 10
  | OffsetOct => 8
  | OffsetPercent => 10
  end.

(** [parsenum] reads back the width that [printfFormat] printed. *)
Definition readsBack (suffix : string) (w : Z) : bool :=
  match Fmt.parsenum None (Fmt.fmtInteger 10 None w ++ suffix) with
  | (Some w', rest) => (w' =? w) && String.eqb rest suffix
  | (None, _) => false
  end.

End Notions.

(** Two readers differ at most in the source, the counter and the
    builder. *)
Definition sameConfiguration `{ColorPackage} {S : Type} (rd rd' : Reader S) : Prop :=
  charFormatters rd' = charFormatters rd /\
  charFormatterCount rd' = charFormatterCount rd /\
  offsetFormatter rd' = offsetFormatter rd /\
  offsetFormatterCount rd' = offsetFormatterCount rd /\
  fileSize rd' = fileSize rd /\
  Splitter rd' = Splitter rd /\
  showHeader rd' = showHeader rd /\
  offsetFormatterFormat rd' = offsetFormatterFormat rd /\
  offsetFormatterWidth rd' = offsetFormatterWidth rd /\
  rcolors rd' = rcolors rd.

(** The text of the [i]-th offset formatter for an offset, empty when
    there is no such formatter. *)
Definition offsetColumn `{ColorPackage} {S : Type} (rd : Reader S) (i : nat)
    (offset : Z) : string :=
  match offsetFormatter rd !! i with
  | Some f => default "" (offsetText rd f offset)
  | None => ""
  end.

(** The first byte of every run of equal bytes of [l], where [prev] is
    the byte before [l], if any. *)
Fixpoint runs (prev : option Z) (l : list Z) : list Z :=
  match l with
  | [] => []
  | x :: l' => (if decide (prev = Some x) then [] else [x]) ++ runs (Some x) l'
  end.

(** The labels [Header] writes above the rows of a formatter. *)
Definition headerLabels (f : ByteFormatter) : string :=
  default "" (headerBlock f).

(** The strings [ts] with [sep] between any two of them. *)
Fixpoint joinWith (sep : string) (ts : list string) : string :=
  match ts with
  | [] => ""
  | [t] => t
  | t :: ts' => t ++ sep ++ joinWith sep ts'
  end.

(** The width of a whole row of a formatter: sixteen columns, the space
    in the middle of the row and, except between ascii columns, a space
    after each column but the last. *)
Definition rowWidth (f : ByteFormatter) : Z :=
  16 * declaredWidth f + 1 + (if decide (f = ViewASCII) then 0 else 15).

(** The pieces [bs] with [sep] between any two of them. *)
Fixpoint between {A : Type} (sep : list A) (bs : list (list A)) : list A :=
  match bs with
  | [] => []
  | [b] => b
  | b :: bs' => b ++ sep ++ between sep bs'
  end.

(** The number of records of 16 bytes that hold [n] bytes. *)
Definition records (n : Z) : Z := (n + 15) / 16.

(** ** A concrete setting for the examples *)

Module Sample.

(** 256-color ANSI escapes. *)
#[global] Instance ansi : ColorPackage := {|
  ColorCode := Z;
  SetForeground := String "027"%char "[38;5;";
  AnsiColor_String := fun c => Fmt.fmtInteger 10 None c ++ "m";
  ColorGrey93_eeeeee := 255;
  ColorGrey35_585858 := 240;
  ColorGrey100_ffffff := 231
|}.

(** An in-memory source in the manner of [bytes.Reader]: the data and the
    position.  Reading at the end reports [io.EOF]. *)
Record memory := { data : list Z; pos : Z }.

Definition memorySeek (m : memory) (offset whence : Z) : memory * (Z * option error) :=
  let abs :=
    if whence =? 0 then offset
    else if whence =? 1 then pos m + offset
    else Z.of_nat (length (data m)) + offset in
  if abs <? 0 then (m, (0, Some (IOError "negative position")))
  else ({| data := data m; pos := abs |}, (abs, None)).

Definition memoryRead (m : memory) (p : list Z) : memory * (list Z * Z * option error) :=
  if Z.of_nat (length (data m)) <=? pos m then (m, (p, 0, Some EOF))
  else
    let chunk := take (length p) (drop (Z.to_nat (pos m)) (data m)) in
    let n := Z.of_nat (length chunk) in
    ({| data := data m; pos := pos m + n |},
     ((chunk ++ drop (length chunk) p)%list, n, None)).

#[global] Instance memory_source : ReadSeekerCloser memory := {|
  Seek := memorySeek;
  ReadInto := memoryRead;
  Close := fun m => (m, None)
|}.

(** A source whose every call fails, and one that can tell its position
    but cannot be read. *)
Inductive broken := Broken.

#[global] Instance broken_source : ReadSeekerCloser broken := {|
  Seek := fun s _ _ => (s, (0, Some (IOError "seek")));
  ReadInto := fun s p => (s, (p, 0, Some (IOError "read")));
  Close := fun s => (s, None)
|}.

Inductive unreadable := Unreadable.

#[global] Instance unreadable_source : ReadSeekerCloser unreadable := {|
  Seek := fun s _ _ => (s, (0, None));
  ReadInto := fun s p => (s, (p, 0, Some (IOError "read")));
  Close := fun s => (s, None)
|}.

(** Printable ASCII shows as itself, everything else as a dot. *)
Definition dots (b : Z) : Z := if (32 <=? b) && (b <=? 126) then b else 46.

Definition greys : list AnsiColor := (fun n => {| Color := Z.of_nat n |}) <$> seq 0 256.

Definition blank {S : Type} (src : S) : Reader S :=
  {| r := src;
     charFormatters := []; charFormatterCount := 0;
     offsetFormatter := []; offsetFormatterCount := 0;
     fileSize := 0; ReadBytes := 0; sb := []; Splitter := "";
     showHeader := false;
     offsetFormatterFormat := ∅; offsetFormatterWidth := ∅;
     rcolors :=
       {| palette := []; SplitterColor := {| Color := 0 |};
          OffsetColor := {| Color := 0 |}; splitterBreak := "";
          offsetBreak := ""; specialBreak := ""; hilightBreak := "" |} |}.

(** The reader [New] returns over a source, with headers on. *)
Definition over {S : Type} (src : S) (offsets : list OffsetFormatter)
    (views : list ByteFormatter) (filesize : Z) : Reader S :=
  match New src offsets (Some views) greys true filesize with
  | Returns rd => rd
  | Panics _ => blank src
  end.

(** The reader for a file of the given bytes, and for the same bytes as a
    stream of unknown size, where [filesize] is 0. *)
Definition reader (bytes : list Z) (offsets : list OffsetFormatter)
    (views : list ByteFormatter) : Reader memory :=
  over {| data := bytes; pos := 0 |} offsets views (Z.of_nat (length bytes)).

Definition streaming (bytes : list Z) (offsets : list OffsetFormatter)
    (views : list ByteFormatter) : Reader memory :=
  over {| data := bytes; pos := 0 |} offsets views 0.

(** The buffer after reading [5, 5, 5, 9] and after reading three 7s. *)
Definition fives : list Z := [5; 5; 5; 9; 0; 0; 0; 0; 0; 0; 0; 0; 0; 0; 0; 0].
Definition sevens : list Z := [7; 7; 7; 0; 0; 0; 0; 0; 0; 0; 0; 0; 0; 0; 0; 0].

End Sample.

(** ** Properties of the formatting primitives *)

Section Enumeration.

(** A boolean property checked on every integer of a range holds on the
    range. *)
Lemma range_forall (P : Z -> bool) (lo : Z) (n : nat) :
  forallb P ((fun k => lo + Z.of_nat k) <$> seq 0 n) = true ->
  forall x, lo <= x < lo + Z.of_nat n -> P x = true.
Proof.
  intros Hall x Hx.
  rewrite forallb_forall in Hall. apply Hall.
  apply list_elem_of_In, list_elem_of_fmap.
  exists (Z.to_nat (x - lo)). split; [lia|].
  apply list_elem_of_In, in_seq. lia.
Qed.

Lemma byte_forall (P : Z -> bool) :
  forallb P ((fun k => 0 + Z.of_nat k) <$> seq 0 256) = true ->
  forall b, 0 <= b < 256 -> P b = true.
Proof. intros Hall b Hb. apply (range_forall P 0 256 Hall). lia. Qed.

End Enumeration.

Lemma RuneCount_app (a b : string) :
  Fmt.RuneCount (a ++ b) = Fmt.RuneCount a + Fmt.RuneCount b.
Proof. induction a as [|c a IH]; simpl; [reflexivity | rewrite IH; lia]. Qed.

Lemma land63_range (x : Z) : 0 <= Z.land x 63 < 64.
Proof.
  change 63 with (Z.ones 6). rewrite Z.land_ones by lia.
  apply Z.mod_pos_bound. reflexivity.
Qed.

Lemma shiftr_range (x k hi : Z) :
  0 <= k -> 0 <= x < hi * 2 ^ k -> 0 <= Z.shiftr x k < hi.
Proof.
  intros Hk [Hlo Hhi]. rewrite Z.shiftr_div_pow2 by lia.
  assert (0 < 2 ^ k) by (apply Z.pow_pos_nonneg; lia).
  split; [apply Z.div_pos; lia | apply Z.div_lt_upper_bound; lia].
Qed.

(** The trailing bytes of an encoding continue it ... *)
Lemma continuation_byte (x : Z) :
  Fmt.isContinuation (Fmt.byteOf (Z.lor 128 (Z.land x 63))) = true.
Proof.
  apply (range_forall (fun y => Fmt.isContinuation (Fmt.byteOf (Z.lor 128 y))) 0 64).
  - vm_compute. reflexivity.
  - pose proof (land63_range x). lia.
Qed.

(** ... and the leading byte never does. *)
Lemma leading_byte (tag x : Z) :
  tag = 192 \/ tag = 224 \/ tag = 240 ->
  0 <= x < 32 ->
  Fmt.isContinuation (Fmt.byteOf (Z.lor tag x)) = false.
Proof.
  intros Htag Hx. apply negb_true_iff.
  destruct Htag as [-> | [-> | ->]].
  - apply (range_forall (fun y => negb (Fmt.isContinuation (Fmt.byteOf (Z.lor 192 y)))) 0 32);
      [vm_compute; reflexivity | lia].
  - apply (range_forall (fun y => negb (Fmt.isContinuation (Fmt.byteOf (Z.lor 224 y)))) 0 32);
      [vm_compute; reflexivity | lia].
  - apply (range_forall (fun y => negb (Fmt.isContinuation (Fmt.byteOf (Z.lor 240 y)))) 0 32);
      [vm_compute; reflexivity | lia].
Qed.

(** [%c] always prints exactly one character. *)
Lemma RuneCount_fmtC (c : Z) : Fmt.RuneCount (Fmt.fmtC c) = 1.
Proof.
  unfold Fmt.fmtC, Fmt.encodeRune.
  destruct ((0 <=? c) && (c <=? 127)) eqn:H1.
  { apply andb_true_iff in H1 as [Ha Hb].
    assert (Hnc : negb (Fmt.isContinuation (Fmt.byteOf c)) = true).
    { apply (range_forall (fun y => negb (Fmt.isContinuation (Fmt.byteOf y))) 0 128);
        [vm_compute; reflexivity | lia]. }
    apply negb_true_iff in Hnc. cbn [Fmt.RuneCount]. rewrite Hnc. reflexivity. }
  destruct ((0 <=? c) && (c <=? 2047)) eqn:H2.
  { apply andb_true_iff in H2 as [Ha Hb].
    cbn [Fmt.RuneCount].
    rewrite continuation_byte, leading_byte; [reflexivity | tauto |].
    apply shiftr_range; lia. }
  destruct ((c <? 0) || (1114111 <? c) || ((55296 <=? c) && (c <=? 57343))) eqn:H3.
  { vm_compute. reflexivity. }
  apply orb_false_iff in H3 as [H3 _].
  apply orb_false_iff in H3 as [Hneg Hmax].
  destruct (c <=? 65535) eqn:H4; cbn [Fmt.RuneCount].
  - rewrite !continuation_byte, leading_byte; [reflexivity | tauto |].
    apply shiftr_range; lia.
  - rewrite !continuation_byte, leading_byte; [reflexivity | tauto |].
    apply shiftr_range; lia.
Qed.

Section Columns.

Context `{ColorPackage} {S : Type} `{ReadSeekerCloser S}.
Variable asciiByteToChar : Z -> Z.

Lemma integer_width (base width b : Z) :
  (base, width) = (16, 2) \/ (base, width) = (10, 3) \/
  (base, width) = (8, 3) \/ (base, width) = (2, 8) ->
  0 <= b < 256 ->
  Fmt.RuneCount (Fmt.fmtInteger base (Some width) b) = width.
Proof.
  intros Hbw Hb.
  apply Z.eqb_eq.
  revert b Hb.
  destruct Hbw as [E | [E | [E | E]]]; injection E as -> ->;
    apply byte_forall; vm_compute; reflexivity.
Qed.

(** C5. For every byte value 0..255 and every byte formatter, the text
    written for a present byte, its color escapes left out, is exactly as
    wide as the formatter's declared width: hex 2, dec 3, oct 3, bit 8,
    ascii 1, hex-with-ascii 6 and dec-with-ascii 7. *)
Theorem present_width (rd : Reader S) (f : ByteFormatter) (b : Z) :
  0 <= b < 256 ->
  textWidth (writePresent asciiByteToChar rd f b) = declaredWidth f.
Proof.
  intros Hb. unfold textWidth.
  destruct f; cbn [writePresent textOf fold_right declaredWidth];
    rewrite ?RuneCount_app, ?RuneCount_fmtC, ?integer_width by (tauto || assumption);
    reflexivity.
Qed.

(** Only the color writes of a column matter for [colorsOf]. *)
Lemma colorsOf_app (xs ys : list write) :
  colorsOf (xs ++ ys) = (colorsOf xs ++ colorsOf ys)%list.
Proof. apply omap_app. Qed.

Lemma colorsOf_writeSpace (f : ByteFormatter) (i : Z) :
  colorsOf (writeSpace f i) = [].
Proof. unfold writeSpace. destruct (i <? 15), f; reflexivity. Qed.

Lemma colorsOf_writePadding (f : ByteFormatter) : colorsOf (writePadding f) = [].
Proof. destruct f; reflexivity. Qed.

Lemma colorsOf_writeColor (tmp : list Z) (i : Z) (c : string) :
  colorsOf (writeColor tmp i c) = if changed tmp i then [c] else [].
Proof. unfold writeColor. destruct (changed tmp i); reflexivity. Qed.

Lemma colorsOf_halfRow (i : Z) :
  colorsOf (if i =? 8 then [WText " "] else []) = [].
Proof. destruct (i =? 8); reflexivity. Qed.

Lemma changed_iff (tmp : list Z) (i : Z) :
  0 <= i ->
  changed tmp i = true <-> i = 0 \/ byteAt tmp i <> byteAt tmp (i - 1).
Proof.
  intros Hi. unfold changed.
  rewrite orb_true_iff, andb_true_iff, negb_true_iff.
  rewrite Z.eqb_eq, Z.ltb_lt, Z.eqb_neq.
  destruct (decide (i = 0)); [tauto | intuition lia].
Qed.

Lemma column_present (rd : Reader S) (f : ByteFormatter) (rb : Z)
    (tmp : list Z) (i : Z) :
  i < rb ->
  column asciiByteToChar rd f rb tmp i =
    ((if i =? 8 then [WText " "] else []) ++
     writeColor tmp i (paletteAt rd (byteAt tmp i)) ++
     writePresent asciiByteToChar rd f (byteAt tmp i) ++ writeSpace f i)%list.
Proof.
  intros Hi. unfold column.
  destruct (rb >? i) eqn:E; [reflexivity | lia].
Qed.

Lemma column_absent (rd : Reader S) (f : ByteFormatter) (rb : Z)
    (tmp : list Z) (i : Z) :
  rb <= i ->
  column asciiByteToChar rd f rb tmp i =
    ((if i =? 8 then [WText " "] else []) ++
     writeColor tmp i (paletteAt rd 0) ++ writePadding f ++ writeSpace f i)%list.
Proof.
  intros Hi. unfold column.
  destruct (rb >? i) eqn:E; [lia | reflexivity].
Qed.

(** C2, as the code has it. At a position [rb..15] of a short record the
    only color written is the palette color of byte value 0, there is no
    separate fallback color; it is written exactly when the position is
    the first column or the buffer's byte differs from the previous
    column's. *)
Theorem padding_color (rd : Reader S) (f : ByteFormatter) (rb : Z)
    (tmp : list Z) (i : Z) :
  rb <= i ->
  colorsOf (column asciiByteToChar rd f rb tmp i) =
    if changed tmp i then [paletteAt rd 0] else [].
Proof.
  intros Hi. rewrite column_absent by assumption.
  rewrite !colorsOf_app, colorsOf_halfRow, colorsOf_writeColor,
    colorsOf_writePadding, colorsOf_writeSpace.
  destruct (changed tmp i); reflexivity.
Qed.

(** C4, as the code has it. For every byte formatter the check shared by
    all of them writes the palette color of a present byte in front of
    what the formatter writes for it, exactly when the column is the
    first or its value differs from the previous column's.  With hex,
    dec, oct, bit and ascii this is the only color of the column; with
    hex-with-ascii and dec-with-ascii the formatter writes four more
    colors of its own for every present byte.  For the bytes 5,5,5,9 in
    hex this gives a color before columns 0 and 3 and none before 1, 2. *)
Theorem color_on_change (rd : Reader S) (f : ByteFormatter) (rb : Z)
    (tmp : list Z) (i : Z) :
  0 <= i < rb ->
  column asciiByteToChar rd f rb tmp i =
    ((if i =? 8 then [WText " "] else []) ++
     (if changed tmp i then [WColor (paletteAt rd (byteAt tmp i))] else []) ++
     writePresent asciiByteToChar rd f (byteAt tmp i) ++ writeSpace f i)%list /\
  (changed tmp i = true <-> i = 0 \/ byteAt tmp i <> byteAt tmp (i - 1)) /\
  colorsOf (writePresent asciiByteToChar rd f (byteAt tmp i)) =
    (if withASCII f
     then [paletteAt rd (byteAt tmp i); specialBreak (rcolors rd);
           hilightBreak (rcolors rd); specialBreak (rcolors rd)]
     else []) /\
  colorsOf (column asciiByteToChar rd f rb tmp i) =
    ((if changed tmp i then [paletteAt rd (byteAt tmp i)] else []) ++
     (if withASCII f
      then [paletteAt rd (byteAt tmp i); specialBreak (rcolors rd);
            hilightBreak (rcolors rd); specialBreak (rcolors rd)]
      else []))%list /\
  [0; 1; 2; 3] ≫=
    column asciiByteToChar rd ViewHex 4 Sample.fives =
    [WColor (paletteAt rd 5); WText "05"; WText " ";
     WText "05"; WText " ";
     WText "05"; WText " ";
     WColor (paletteAt rd 9); WText "09"; WText " "].
Proof.
  intros [Hi0 Hirb].
  rewrite column_present by assumption.
  split; [|split; [|split; [|split]]].
  - unfold writeColor. destruct (changed tmp i); reflexivity.
  - apply changed_iff; assumption.
  - destruct f; reflexivity.
  - rewrite !colorsOf_app, colorsOf_halfRow, colorsOf_writeColor, colorsOf_writeSpace.
    destruct f; destruct (changed tmp i); reflexivity.
  - reflexivity.
Qed.

(** C10. With hex-with-ascii and dec-with-ascii the palette color of the
    byte is written immediately before the byte's number in every present
    column, whether or not the value changed; the check on a change only
    decides about the additional color written in front of it. *)
Theorem ascii_variants_color_every_byte (rd : Reader S) (f : ByteFormatter)
    (rb : Z) (tmp : list Z) (i : Z) :
  withASCII f = true ->
  0 <= i < rb ->
  let b := byteAt tmp i in
  let number :=
    match f with
    | ViewHexWithASCII => Fmt.fmtInteger 16 (Some 2) b
    | _ => Fmt.fmtInteger 10 (Some 3) b
    end in
  column asciiByteToChar rd f rb tmp i =
    ((if i =? 8 then [WText " "] else []) ++
     (if changed tmp i then [WColor (paletteAt rd b)] else []) ++
     [WColor (paletteAt rd b); WText (number ++ " ");
      WColor (specialBreak (rcolors rd)); WText "[";
      WColor (hilightBreak (rcolors rd)); WText (Fmt.fmtC (asciiByteToChar b));
      WColor (specialBreak (rcolors rd)); WText "]"] ++
     writeSpace f i)%list /\
  colorsOf (column asciiByteToChar rd f rb tmp i) =
    ((if changed tmp i then [paletteAt rd b] else []) ++
     [paletteAt rd b; specialBreak (rcolors rd); hilightBreak (rcolors rd);
      specialBreak (rcolors rd)])%list.
Proof.
  intros Hf [Hi0 Hirb] b number.
  rewrite column_present by assumption.
  split.
  - destruct f; try discriminate Hf; reflexivity.
  - rewrite !colorsOf_app, colorsOf_halfRow, colorsOf_writeColor, colorsOf_writeSpace.
    destruct f; try discriminate Hf; destruct (changed tmp i); reflexivity.
Qed.

(** C6, evaluated. The padding of every formatter but bit is as wide as
    the formatter's column; the bit formatter has no case in the padding
    switch, so its padding is empty and an absent bit column shows nothing
    but the separating space. *)
Theorem padding_width (rd : Reader S) (f : ByteFormatter) (tmp : list Z) :
  textWidth (writePadding f) =
    (if decide (f = ViewBit) then 0 else declaredWidth f) /\
  textOf (column asciiByteToChar rd ViewBit 5 tmp 6) = " " /\
  textWidth (writePresent asciiByteToChar rd ViewBit 0) = 8.
Proof.
  split; [destruct f; reflexivity | split; [|reflexivity]].
  rewrite column_absent by lia. unfold writeColor.
  destruct (changed tmp 6); reflexivity.
Qed.

End Columns.

(** ** Construction *)

Section Digits.

Lemma hexDigits_step (u : Z) : 16 <= u -> hexDigits u = hexDigits (u / 16) + 1.
Proof.
  intros Hu. unfold hexDigits.
  assert (H1 : 1 <= u / 16) by (apply Z.div_le_lower_bound; lia).
  destruct (u =? 0) eqn:E0; [lia|].
  destruct (u / 16 =? 0) eqn:E1; [lia|].
  assert (Hlog : Z.log2 (u / 16) = Z.log2 u - 4).
  { change 16 with (2 ^ 4). rewrite <- Z.shiftr_div_pow2 by lia.
    rewrite Z.log2_shiftr by lia.
    assert (4 <= Z.log2 u) by (apply Z.log2_le_pow2; [lia | change (2 ^ 4) with 16; lia]).
    lia. }
  rewrite Hlog. Z.to_euclidean_division_equations. lia.
Qed.

Lemma hexDigits_small (u : Z) : 0 <= u < 16 -> hexDigits u = 1.
Proof.
  intros Hu. unfold hexDigits.
  destruct (u =? 0) eqn:E0; [reflexivity|].
  assert (Z.log2 u < 4) by (apply Z.log2_lt_pow2; [lia | change (2 ^ 4) with 16; lia]).
  pose proof (Z.log2_nonneg u). rewrite Z.div_small by lia. reflexivity.
Qed.

(** The digit loop writes as many digits as the number needs. *)
Lemma digitsLoop_length (fuel : nat) :
  forall u acc, 0 <= u < 16 ^ Z.of_nat (Datatypes.S fuel) ->
    Z.of_nat (String.length (Fmt.digitsLoop (Datatypes.S fuel) 16 u acc)) =
      hexDigits u + Z.of_nat (String.length acc).
Proof.
  induction fuel as [|fuel IH]; intros u acc Hu.
  - change (16 ^ Z.of_nat 1) with 16 in Hu.
    cbn [Fmt.digitsLoop]. destruct (u <? 16) eqn:E; [|lia].
    rewrite hexDigits_small by lia. cbn [String.length]. lia.
  - rewrite Nat2Z.inj_succ, Z.pow_succ_r in Hu by lia.
    change (Fmt.digitsLoop (Datatypes.S (Datatypes.S fuel)) 16 u acc) with
      (if u <? 16 then String (Fmt.digit u) acc
       else Fmt.digitsLoop (Datatypes.S fuel) 16 (u / 16)
              (String (Fmt.digit (u mod 16)) acc)).
    destruct (u <? 16) eqn:E.
    + rewrite hexDigits_small by lia. cbn [String.length]. lia.
    + rewrite IH.
      * rewrite (hexDigits_step u) by lia. cbn [String.length]. lia.
      * split; [apply Z.div_pos; lia | apply Z.div_lt_upper_bound; lia].
Qed.

Lemma hexLen_hexDigits (filesize : Z) :
  0 <= filesize < 2 ^ 63 -> hexLen filesize = hexDigits filesize.
Proof.
  intros Hn. unfold hexLen, Fmt.fmtInteger, Fmt.padLeft, Fmt.digits.
  destruct (filesize <? 0) eqn:E; [lia|].
  rewrite Z.abs_eq by lia. cbn [Fmt.zeros Z.to_nat String.append].
  replace (Z.to_nat (0 - _)) with 0%nat by lia.
  change (Z.of_nat (String.length (Fmt.digitsLoop 64 16 filesize "")) = hexDigits filesize).
  rewrite digitsLoop_length; [cbn [String.length]; lia|].
  change (16 ^ Z.of_nat 64) with (2 ^ 256).
  assert (2 ^ 63 < 2 ^ 256) by (apply Z.pow_lt_mono_r; lia). lia.
Qed.

(** [hexDigits n] is the least number of digits whose range holds [n]. *)
Lemma hexDigits_spec (n : Z) :
  0 < n -> 16 ^ (hexDigits n - 1) <= n < 16 ^ hexDigits n.
Proof.
  intros Hn. unfold hexDigits.
  destruct (n =? 0) eqn:E0; [lia|].
  pose proof (Z.log2_spec n Hn) as [Hlo Hhi].
  pose proof (Z.log2_nonneg n) as Hl.
  set (l := Z.log2 n) in *.
  assert (Hq : 0 <= l / 4) by (apply Z.div_pos; lia).
  replace (l / 4 + 1 - 1) with (l / 4) by lia.
  change 16 with (2 ^ 4). rewrite <- !Z.pow_mul_r by lia.
  split.
  - apply Z.le_trans with (2 ^ l); [|assumption].
    apply Z.pow_le_mono_r; [lia|]. Z.to_euclidean_division_equations. lia.
  - apply Z.lt_le_trans with (2 ^ Z.succ l); [assumption|].
    apply Z.pow_le_mono_r; [lia|]. Z.to_euclidean_division_equations. lia.
Qed.

Lemma digitsLoop_bounds (fuel : nat) (base : Z) :
  forall u acc,
    (String.length acc + (if fuel is O then 0 else 1) <=
       String.length (Fmt.digitsLoop fuel base u acc) <=
     String.length acc + fuel)%nat.
Proof.
  induction fuel as [|fuel IH]; intros u acc; cbn [Fmt.digitsLoop]; [lia|].
  destruct (u <? base); cbn [String.length]; [lia|].
  specialize (IH (u / base) (String (Fmt.digit (u mod base)) acc)).
  cbn [String.length] in IH. destruct fuel; lia.
Qed.

Lemma hexLen_bounds (filesize : Z) : 1 <= hexLen filesize <= 65.
Proof.
  unfold hexLen, Fmt.fmtInteger, Fmt.padLeft, Fmt.digits.
  pose proof (digitsLoop_bounds 64 16 (Z.abs filesize) "") as Hb.
  cbn [String.length] in Hb.
  replace (Z.to_nat (0 - _)) with 0%nat by lia.
  change (Fmt.zeros 0 ++ ?s) with s.
  destruct (filesize <? 0); cbn [String.length]; lia.
Qed.

End Digits.

Section Construction.

Context `{ColorPackage} {S : Type} `{ReadSeekerCloser S}.

Lemma setWidth_insert (filesize : Z) (f : OffsetFormatter)
    (widths : gmap OffsetFormatter Z) :
  setWidth filesize f widths = <[f := derivedWidth filesize f]> widths.
Proof. destruct f; reflexivity. Qed.

Lemma derivedWidth_bounds (filesize : Z) (f : OffsetFormatter) :
  1 <= derivedWidth filesize f <= 65.
Proof.
  pose proof (hexLen_bounds filesize).
  destruct f; cbn [derivedWidth]; lia.
Qed.

(** One formatter more: the tables stay in agreement, keep what they
    had and hold the new formatter. *)
Lemma deriveOne_tables (filesize : Z) (f : OffsetFormatter)
    (formats : gmap OffsetFormatter string) (widths : gmap OffsetFormatter Z) :
  derivedTables filesize formats widths ->
  exists formats' widths',
    deriveOne filesize (Returns (formats, widths)) f = Returns (formats', widths') /\
    derivedTables filesize formats' widths' /\
    is_Some (widths' !! f) /\
    (forall g, is_Some (widths !! g) -> is_Some (widths' !! g)).
Proof.
  intros Hinv. cbn [deriveOne].
  destruct (widths !! f) as [w|] eqn:Hf.
  - exists formats, widths. rewrite Hf. eauto.
  - rewrite setWidth_insert, lookup_insert_eq.
    eexists _, _. split; [reflexivity|]. split; [|split].
    + intros g w Hg.
      destruct (decide (f = g)) as [<-|Hne].
      * rewrite lookup_insert_eq in Hg. injection Hg as <-.
        rewrite lookup_insert_eq. auto.
      * rewrite lookup_insert_ne in Hg by assumption.
        rewrite lookup_insert_ne by assumption. auto.
    + rewrite lookup_insert_eq. eauto.
    + intros g Hg. destruct (decide (f = g)) as [<-|Hne].
      * rewrite lookup_insert_eq. eauto.
      * rewrite lookup_insert_ne by assumption. assumption.
Qed.

(** The loop of [New] never panics and leaves a width and a format for
    every formatter of the list. *)
Lemma derive_tables (filesize : Z) (offsets : list OffsetFormatter) :
  forall formats widths,
    derivedTables filesize formats widths ->
    exists formats' widths',
      fold_left (deriveOne filesize) offsets (Returns (formats, widths)) =
        Returns (formats', widths') /\
      derivedTables filesize formats' widths' /\
      (forall f, f ∈ offsets -> is_Some (widths' !! f)) /\
      (forall g, is_Some (widths !! g) -> is_Some (widths' !! g)).
Proof.
  induction offsets as [|f offsets IH]; intros formats widths Hinv.
  - exists formats, widths. cbn [fold_left].
    split; [reflexivity|]. split; [exact Hinv|]. split; [|auto].
    intros f Hf. inversion Hf.
  - destruct (deriveOne_tables filesize f formats widths Hinv)
      as (formats1 & widths1 & Hstep & Hinv1 & Hf1 & Hkeep1).
    destruct (IH formats1 widths1 Hinv1)
      as (formats2 & widths2 & Hfold & Hinv2 & Hall2 & Hkeep2).
    exists formats2, widths2.
    cbn [fold_left]. rewrite Hstep. split; [exact Hfold|].
    split; [exact Hinv2|]. split.
    + intros g Hg. apply elem_of_cons in Hg as [-> | Hg]; auto.
    + auto.
Qed.

Lemma derivedTables_empty (filesize : Z) : derivedTables filesize ∅ ∅.
Proof. intros f w Hf. rewrite lookup_empty in Hf. discriminate. Qed.

(** What [New] returns. *)
Lemma New_returns (src : S) (offsets : list OffsetFormatter)
    (views : list ByteFormatter) (pal : list AnsiColor) (show : bool)
    (filesize : Z) :
  exists rd,
    New src offsets (Some views) pal show filesize = Returns rd /\
    r rd = src /\ charFormatters rd = views /\ offsetFormatter rd = offsets /\
    charFormatterCount rd = Z.of_nat (length views) /\
    offsetFormatterCount rd = Z.of_nat (length offsets) /\
    fileSize rd = filesize /\ ReadBytes rd = 0 /\ showHeader rd = show /\
    derivedTables filesize (offsetFormatterFormat rd) (offsetFormatterWidth rd) /\
    (forall f, f ∈ offsets -> is_Some (offsetFormatterWidth rd !! f)).
Proof.
  destruct (derive_tables filesize offsets ∅ ∅ (derivedTables_empty filesize))
    as (formats & widths & Hfold & Hinv & Hall & _).
  unfold New. rewrite Hfold. eexists. split; [reflexivity|].
  cbn. repeat (split; [reflexivity|]). split; assumption.
Qed.

Lemma New_configured (src : S) (offsets : list OffsetFormatter)
    (views : list ByteFormatter) (pal : list AnsiColor) (show : bool)
    (filesize : Z) (rd : Reader S) :
  New src offsets (Some views) pal show filesize = Returns rd ->
  configured rd.
Proof.
  intros Hnew.
  destruct (New_returns src offsets views pal show filesize)
    as (rd' & Hnew' & _ & _ & Hoffs & _ & Hcount & _ & _ & _ & Hinv & Hall).
  rewrite Hnew in Hnew'. injection Hnew' as <-.
  split; [rewrite Hcount, Hoffs; reflexivity|].
  intros f Hf. rewrite Hoffs in Hf.
  destruct (Hall f Hf) as [w Hw].
  destruct (Hinv f w Hw) as [-> Hfmt].
  exists (derivedWidth filesize f). split; [apply derivedWidth_bounds | exact Hfmt].
Qed.

(** C7. For every total size, [New] gives the hex, the dec and the oct
    offset formatter the same width: the number of hexadecimal digits of
    the size, that is 1 for size 0 and otherwise the [w] with
    [16^(w-1) <= size < 16^w]. *)
Theorem offset_widths (src : S) (offsets : list OffsetFormatter)
    (views : list ByteFormatter) (pal : list AnsiColor) (show : bool)
    (filesize : Z) :
  0 <= filesize < 2 ^ 63 ->
  exists rd,
    New src offsets (Some views) pal show filesize = Returns rd /\
    (forall f, f ∈ offsets -> f <> OffsetPercent ->
       offsetFormatterWidth rd !! f = Some (hexDigits filesize)) /\
    (filesize = 0 -> hexDigits filesize = 1) /\
    (0 < filesize ->
       16 ^ (hexDigits filesize - 1) <= filesize < 16 ^ hexDigits filesize).
Proof.
  intros Hsize.
  destruct (New_returns src offsets views pal show filesize)
    as (rd & Hnew & _ & _ & _ & _ & _ & _ & _ & _ & Hinv & Hall).
  exists rd. split; [exact Hnew|]. split; [|split].
  - intros f Hf Hne.
    destruct (Hall f Hf) as [w Hw].
    destruct (Hinv f w Hw) as [-> _]. rewrite Hw. f_equal.
    destruct f; try contradiction; cbn [derivedWidth];
      apply hexLen_hexDigits; assumption.
  - intros ->. reflexivity.
  - apply hexDigits_spec.
Qed.

End Construction.

(** ** Offsets and records *)

Section Rendering.

Context `{ColorPackage} {S : Type} `{ReadSeekerCloser S}.
Variable asciiByteToChar : Z -> Z.

Lemma readsBack_widths (suffix : string) (w : Z) :
  suffix = "x" \/ suffix = "d" \/ suffix = "o" ->
  1 <= w <= 65 ->
  Fmt.parsenum None (Fmt.fmtInteger 10 None w ++ suffix) = (Some w, suffix).
Proof.
  intros Hs Hw.
  assert (Hrb : readsBack suffix w = true).
  { destruct Hs as [-> | [-> | ->]].
    - apply (range_forall (readsBack "x") 1 65); [vm_compute; reflexivity | lia].
    - apply (range_forall (readsBack "d") 1 65); [vm_compute; reflexivity | lia].
    - apply (range_forall (readsBack "o") 1 65); [vm_compute; reflexivity | lia]. }
  unfold readsBack in Hrb.
  destruct (Fmt.parsenum None (Fmt.fmtInteger 10 None w ++ suffix)) as [[w'|] rest];
    [|discriminate].
  apply andb_true_iff in Hrb as [Hw' Hrest].
  apply Z.eqb_eq in Hw'. apply String.eqb_eq in Hrest. congruence.
Qed.

(** The formats of [New] are within the modelled fragment of [Sprintf]. *)
Lemma Sprintf_offset (f : OffsetFormatter) (w v : Z) :
  f <> OffsetPercent ->
  1 <= w <= 65 ->
  Fmt.Sprintf (printfFormat f w) (Fmt.OpInt v) =
    Some (Fmt.fmtInteger (offsetBase f) (Some w) v).
Proof.
  clear asciiByteToChar.
  intros Hf Hw.
  destruct f; try contradiction; unfold printfFormat, Fmt.Sprintf;
    change ("%0" ++ ?rest) with (String "%"%char (String "0"%char rest));
    cbv iota; rewrite readsBack_widths by (tauto || lia); reflexivity.
Qed.

Lemma Sprintf_percent (x : Fmt.float64) :
  Fmt.Sprintf (printfFormat OffsetPercent 8) (Fmt.OpFloat x) =
    Some (Fmt.fmtFloat 7 3 x ++ "%").
Proof. reflexivity. Qed.

(** [formatOffset] of a configured formatter appends one text and changes
    nothing but the builder. *)
Lemma formatOffset_configured (rd : Reader S) (f : OffsetFormatter) (offset : Z) :
  configured rd -> f ∈ offsetFormatter rd ->
  exists s, formatOffset rd f offset = Some (sbWrite rd [WText s]).
Proof.
  intros [_ Hfmt] Hf.
  destruct (Hfmt f Hf) as (w & Hw & Hlookup).
  unfold formatOffset. rewrite Hlookup. cbn [default from_option id].
  destruct f.
  1-3: rewrite Sprintf_offset by (discriminate || assumption); eexists; reflexivity.
  eexists. reflexivity.
Qed.

Lemma configured_lookup (rd : Reader S) (i : nat) :
  configured rd -> Z.of_nat i < offsetFormatterCount rd ->
  exists f, offsetFormatter rd !! i = Some f /\ f ∈ offsetFormatter rd.
Proof.
  intros [Hcount _] Hi.
  destruct (lookup_lt_is_Some_2 (offsetFormatter rd) i) as [f Hf]; [lia|].
  exists f. split; [exact Hf|]. eapply list_elem_of_lookup_2. exact Hf.
Qed.

(** Both offset renderings exist for a configured reader and touch only
    the builder. *)
Lemma getoffsetLeft_configured (rd : Reader S) (offset : Z) :
  configured rd ->
  exists ws, getoffsetLeft rd offset = Some (withBuilder rd ws, flatten ws).
Proof.
  intros Hc. unfold getoffsetLeft.
  change (offsetFormatterCount (sbReset rd)) with (offsetFormatterCount rd).
  destruct (0 <? offsetFormatterCount rd) eqn:E; [|eexists; reflexivity].
  destruct (configured_lookup rd 0 Hc) as (f & Hf & Hin); [lia|].
  change (offsetFormatter (sbWrite (sbReset rd) _)) with (offsetFormatter rd).
  rewrite Hf. cbn [mbind option_bind].
  destruct (formatOffset_configured
              (sbWrite (sbReset rd) [WColor (offsetBreak (rcolors (sbReset rd)))])
              f offset) as [s Hs]; [exact Hc | exact Hin |].
  rewrite Hs. eexists. reflexivity.
Qed.

Lemma getoffsetRight_configured (rd : Reader S) (offset : Z) :
  configured rd ->
  exists ws, getoffsetRight rd offset = Some (withBuilder rd ws, flatten ws).
Proof.
  intros Hc. unfold getoffsetRight.
  change (offsetFormatterCount (sbReset rd)) with (offsetFormatterCount rd).
  destruct (1 <? offsetFormatterCount rd) eqn:E; [|eexists; reflexivity].
  destruct (configured_lookup rd 1 Hc) as (f & Hf & Hin); [lia|].
  change (offsetFormatter (sbWrite _ _)) with (offsetFormatter rd).
  rewrite Hf. cbn [mbind option_bind].
  match goal with
  | |- context [formatOffset ?rd' f offset] =>
      destruct (formatOffset_configured rd' f offset) as [s Hs];
        [exact Hc | exact Hin |]
  end.
  rewrite Hs. eexists. reflexivity.
Qed.

(** The offset tables are not touched by updates of the source, the
    counter or the builder. *)
Lemma configured_withBuilder (rd : Reader S) (ws : list write) :
  configured rd -> configured (withBuilder rd ws).
Proof. intros Hc. exact Hc. Qed.

Lemma configured_withSource (rd : Reader S) (src : S) :
  configured rd -> configured (withSource rd src).
Proof. intros Hc. exact Hc. Qed.

Lemma configured_withReadBytes (rd : Reader S) (n : Z) :
  configured rd -> configured (withReadBytes rd n).
Proof. intros Hc. exact Hc. Qed.

(** [Read] when the position query fails. *)
Lemma Read_seek_error (rd : Reader S) (src : S) (offset : Z) (e : error) :
  Seek (r rd) 0 SeekCurrent = (src, (offset, Some e)) ->
  Read asciiByteToChar rd = Some (withSource rd src, ("", Some e)).
Proof. intros Hseek. unfold Read. rewrite Hseek. reflexivity. Qed.

(** [Read] up to the call of the source's [Read]: the offsets are
    rendered and the left one is in the builder. *)
Lemma Read_offsets (rd : Reader S) (src : S) (offset : Z) :
  configured rd ->
  Seek (r rd) 0 SeekCurrent = (src, (offset, None)) ->
  exists offsetLeft offsetRight,
    Read asciiByteToChar rd =
      let rd := withBuilder (withSource rd src) [WText offsetLeft] in
      let '(src, (p, rb, err)) := ReadInto (r rd) (replicate 16 0) in
      let rd := withSource rd src in
      let tmp := resize 16 0 p in
      match err with
      | Some e => Some (rd, ("", Some e))
      | None =>
          let rd := withReadBytes rd ((ReadBytes rd + rb) mod 2 ^ 64) in
          let rd := sbWrite rd (blocks asciiByteToChar rd rb tmp) in
          let rd := sbWrite rd [WText offsetRight] in
          Some (rd, (sbString rd, None))
      end.
Proof.
  intros Hc Hseek. unfold Read. rewrite Hseek.
  destruct (getoffsetLeft_configured (withSource rd src) offset) as [ws1 H1];
    [exact Hc|].
  rewrite H1. cbn [mbind option_bind].
  destruct (getoffsetRight_configured (withBuilder (withSource rd src) ws1) offset)
    as [ws2 H2]; [exact Hc|].
  rewrite H2. cbn [mbind option_bind].
  exists (flatten ws1), (flatten ws2). reflexivity.
Qed.

Lemma Read_read_error (rd : Reader S) (src src' : S) (offset : Z)
    (p : list Z) (rb : Z) (e : error) :
  configured rd ->
  Seek (r rd) 0 SeekCurrent = (src, (offset, None)) ->
  ReadInto src (replicate 16 0) = (src', (p, rb, Some e)) ->
  exists ws,
    Read asciiByteToChar rd =
      Some (withSource (withBuilder rd ws) src', ("", Some e)).
Proof.
  intros Hc Hseek Hread.
  destruct (Read_offsets rd src offset Hc Hseek) as (l & rt & ->).
  cbn zeta. change (r (withBuilder (withSource rd src) [WText l])) with src.
  rewrite Hread. eexists. reflexivity.
Qed.

Lemma Read_success (rd : Reader S) (src src' : S) (offset : Z)
    (p : list Z) (rb : Z) :
  configured rd ->
  Seek (r rd) 0 SeekCurrent = (src, (offset, None)) ->
  ReadInto src (replicate 16 0) = (src', (p, rb, None)) ->
  exists offsetLeft offsetRight rd',
    Read asciiByteToChar rd = Some (rd', (flatten (sb rd'), None)) /\
    r rd' = src' /\
    ReadBytes rd' = (ReadBytes rd + rb) mod 2 ^ 64 /\
    sb rd' = ([WText offsetLeft] ++ blocks asciiByteToChar rd rb (resize 16 0 p) ++
              [WText offsetRight])%list /\
    configured rd'.
Proof.
  intros Hc Hseek Hread.
  destruct (Read_offsets rd src offset Hc Hseek) as (l & rt & ->).
  cbn zeta. change (r (withBuilder (withSource rd src) [WText l])) with src.
  rewrite Hread. exists l, rt. eexists. split; [reflexivity|].
  cbn [sb ReadBytes r sbWrite withBuilder withReadBytes withSource].
  split; [reflexivity|]. split; [reflexivity|].
  split; [rewrite <- app_assoc; reflexivity | exact Hc].
Qed.

(** C8. A call of [Read] in which the source returns [rb] bytes without
    an error succeeds and adds [rb] to the 64-bit counter [ReadBytes]: the
    new value is the sum modulo [2^64], hence exactly [ReadBytes + rb]
    whenever the sum is in range.  After one call on a fresh reader over a
    source of 5 bytes the counter is 5. *)
Theorem read_counts (rd : Reader S) (src src' : S) (offset : Z)
    (p : list Z) (rb : Z) :
  configured rd ->
  Seek (r rd) 0 SeekCurrent = (src, (offset, None)) ->
  ReadInto src (replicate 16 0) = (src', (p, rb, None)) ->
  (exists rd' line,
     Read asciiByteToChar rd = Some (rd', (line, None)) /\
     ReadBytes rd' = (ReadBytes rd + rb) mod 2 ^ 64 /\
     (0 <= rb -> 0 <= ReadBytes rd -> ReadBytes rd + rb < 2 ^ 64 ->
      ReadBytes rd' = ReadBytes rd + rb)) /\
  (exists rd' line,
     Read Sample.dots (Sample.reader [1; 2; 3; 4; 5] [] [ViewHex]) =
       Some (rd', (line, None)) /\
     ReadBytes rd' = 5).
Proof.
  intros Hc Hseek Hread. split.
  - destruct (Read_success rd src src' offset p rb Hc Hseek Hread)
      as (l & rt & rd' & HRead & _ & Hcount & _ & _).
    exists rd', (flatten (sb rd')). split; [exact HRead|]. split; [exact Hcount|].
    intros Hrb Hn Hsum. rewrite Hcount. apply Z.mod_small. lia.
  - set (res := Read Sample.dots (Sample.reader [1; 2; 3; 4; 5] [] [ViewHex])).
    assert (Hres : match res with
                   | Some (rd', (_, None)) => ReadBytes rd' =? 5
                   | _ => false
                   end = true) by (vm_compute; reflexivity).
    destruct res as [[rd' [line [e|]]]|]; try discriminate Hres.
    exists rd', line. split; [reflexivity | apply Z.eqb_eq; exact Hres].
Qed.

(** C9. When the position query fails, or the query succeeds and the
    read of the source fails, [Read] returns the empty line with that
    error and leaves [ReadBytes] as it was. *)
Theorem read_failure (rd : Reader S) (src : S) (offset : Z) (e : error) :
  configured rd ->
  Seek (r rd) 0 SeekCurrent = (src, (offset, Some e)) \/
  (Seek (r rd) 0 SeekCurrent = (src, (offset, None)) /\
   exists src' p rb, ReadInto src (replicate 16 0) = (src', (p, rb, Some e))) ->
  exists rd',
    Read asciiByteToChar rd = Some (rd', ("", Some e)) /\
    ReadBytes rd' = ReadBytes rd.
Proof.
  intros Hc [Hseek | (Hseek & src' & p & rb & Hread)].
  - rewrite (Read_seek_error rd src offset e Hseek).
    eexists. split; reflexivity.
  - destruct (Read_read_error rd src src' offset p rb e Hc Hseek Hread) as [ws ->].
    eexists. split; reflexivity.
Qed.

(** C1, as the code has it. With a total size of 0 the percentage is a
    division by the float zero, which is not guarded and does not fault:
    the text is [NaN] or an infinity, padded with spaces to 7 characters
    and followed by the percent sign, and never [000.000%].  At offset 0
    it is NaN, at offset 16 it is +Inf. *)
Theorem percent_of_unknown_size (rd : Reader S) (offset : Z) :
  fileSize rd = 0 ->
  offsetFormatterFormat rd !! OffsetPercent = Some "%07.3f%%" ->
  (exists s,
     offsetText rd OffsetPercent offset = Some s /\
     (s = "    NaN%" \/ s = "   +Inf%" \/ s = "   -Inf%") /\
     s <> "000.000%") /\
  offsetText rd OffsetPercent 0 = Some "    NaN%" /\
  offsetText rd OffsetPercent 16 = Some "   +Inf%".
Proof.
  clear asciiByteToChar.
  intros Hsize Hfmt.
  assert (Htext : forall o,
            offsetText rd OffsetPercent o =
              Some ((Fmt.fmtFloat 7 3
                       (Fmt.float64_div
                          (Fmt.float64_mul (Fmt.float64_of_int o) (Fmt.float64_of_int 100))
                          (S754_zero false)) ++ "%") ++ "")).
  { intros o. unfold offsetText, formatOffset.
    change (offsetFormatterFormat (sbReset rd)) with (offsetFormatterFormat rd).
    change (fileSize (sbReset rd)) with (fileSize rd).
    rewrite Hfmt, Hsize. reflexivity. }
  split; [|split].
  - rewrite Htext.
    destruct (Fmt.float64_mul (Fmt.float64_of_int offset) (Fmt.float64_of_int 100))
      as [sg | sg | | sg m ex]; try destruct sg; eexists;
      (split; [reflexivity | split; [tauto | discriminate]]).
  - rewrite Htext. reflexivity.
  - rewrite Htext. vm_compute. reflexivity.
Qed.

(** The labels of [header] are as wide as its argument, for the four
    widths [Header] asks for. *)
Lemma header_label_width (f : ByteFormatter) (i : Z) :
  withASCII f = false ->
  0 <= i < 16 ->
  exists label,
    Fmt.Sprintf ("%0" ++ Fmt.fmtInteger 10 None (declaredWidth f) ++ "x") (Fmt.OpInt i) =
      Some label /\
    Fmt.RuneCount label = declaredWidth f.
Proof.
  intros Hf Hi.
  set (ok := fun l i =>
    match Fmt.Sprintf ("%0" ++ Fmt.fmtInteger 10 None l ++ "x") (Fmt.OpInt i) with
    | Some label => Fmt.RuneCount label =? l
    | None => false
    end).
  assert (Hok : ok (declaredWidth f) i = true).
  { destruct f; try discriminate Hf; cbn [declaredWidth].
    - apply (range_forall (ok 2) 0 16); [vm_compute; reflexivity | lia].
    - apply (range_forall (ok 3) 0 16); [vm_compute; reflexivity | lia].
    - apply (range_forall (ok 3) 0 16); [vm_compute; reflexivity | lia].
    - apply (range_forall (ok 8) 0 16); [vm_compute; reflexivity | lia].
    - apply (range_forall (ok 1) 0 16); [vm_compute; reflexivity | lia]. }
  unfold ok in Hok.
  destruct (Fmt.Sprintf _ _) as [label|]; [|discriminate].
  exists label. split; [reflexivity | apply Z.eqb_eq; exact Hok].
Qed.

(** C3, evaluated. [Header] has a case for hex, ascii, dec, oct and bit,
    whose labels are as wide as the data column; it has none for
    hex-with-ascii and dec-with-ascii, for which the header block is
    empty although the data columns are 6 and 7 wide. *)
Theorem header_blocks (f : ByteFormatter) :
  headerBlock f = (if withASCII f then Some "" else header (declaredWidth f)) /\
  Header (Sample.reader [] [] [ViewHexWithASCII]) =
    Some (offsetBreak (rcolors (Sample.reader [] [] [ViewHexWithASCII])) ++
          String "010"%char "") /\
  Header (Sample.reader [] [] [ViewHex]) =
    Some (offsetBreak (rcolors (Sample.reader [] [] [ViewHex])) ++
          "00 01 02 03 04 05 06 07  08 09 0a 0b 0c 0d 0e 0f" ++
          String "010"%char "").
Proof.
  split; [destruct f; reflexivity | split; vm_compute; reflexivity].
Qed.

End Rendering.

(** ** The properties at concrete readers *)

Section Instances.

Lemma configured_over {S : Type} (src : S) (offsets : list OffsetFormatter)
    (views : list ByteFormatter) (filesize : Z) :
  configured (Sample.over src offsets views filesize).
Proof.
  unfold Sample.over.
  destruct (New_returns src offsets views Sample.greys true filesize)
    as (rd & Hnew & _).
  rewrite Hnew. exact (New_configured _ _ _ _ _ _ _ Hnew).
Qed.

(** C1: with size 0 the percent offset at position 0 is not [000.000%]. *)
Lemma percent_of_unknown_size_refuted :
  fileSize (Sample.streaming [1; 2; 3] [OffsetPercent] [ViewHex]) = 0 /\
  ~ (forall offset,
       offsetText (Sample.streaming [1; 2; 3] [OffsetPercent] [ViewHex])
         OffsetPercent offset = Some "000.000%").
Proof.
  split; [reflexivity|].
  intros Hall. specialize (Hall 0). vm_compute in Hall. discriminate Hall.
Qed.

Lemma percent_of_unknown_size_witness :
  fileSize (Sample.streaming [1; 2; 3] [OffsetPercent] [ViewHex]) = 0 /\
  offsetFormatterFormat (Sample.streaming [1; 2; 3] [OffsetPercent] [ViewHex])
    !! OffsetPercent = Some "%07.3f%%" /\
  offsetText (Sample.streaming [1; 2; 3] [OffsetPercent] [ViewHex]) OffsetPercent 0 =
    Some "    NaN%".
Proof.
  split; [reflexivity | split; [reflexivity|]].
  apply (percent_of_unknown_size
           (Sample.streaming [1; 2; 3] [OffsetPercent] [ViewHex]) 0);
    reflexivity.
Defined.

(** C2: after three bytes 7 the padding of column 3 is introduced by the
    very color of byte value 0. *)
Lemma padding_color_refuted :
  ~ (forall c,
       c ∈ colorsOf (column Sample.dots (Sample.reader [7; 7; 7] [] [ViewHex])
                       ViewHex 3 Sample.sevens 3) ->
       c <> paletteAt (Sample.reader [7; 7; 7] [] [ViewHex]) 0).
Proof.
  intros Hall.
  apply (Hall (paletteAt (Sample.reader [7; 7; 7] [] [ViewHex]) 0)); [|reflexivity].
  vm_compute. apply list_elem_of_here.
Qed.

Lemma padding_color_witness :
  3 <= 3 /\
  colorsOf (column Sample.dots (Sample.reader [7; 7; 7] [] [ViewHex])
              ViewHex 3 Sample.sevens 3) =
    [paletteAt (Sample.reader [7; 7; 7] [] [ViewHex]) 0].
Proof.
  split; [lia|].
  apply (padding_color Sample.dots (Sample.reader [7; 7; 7] [] [ViewHex])
           ViewHex 3 Sample.sevens 3).
  lia.
Defined.

(** C4: in hex-with-ascii the second 5 of 5,5,5,9 has colors in front
    of it although it is neither the first column nor a change. *)
Lemma color_on_change_refuted :
  ~ (forall f i, 0 <= i < 4 ->
       ((exists c,
           c ∈ colorsOf (column Sample.dots (Sample.reader [5; 5; 5; 9] [] [f])
                           f 4 Sample.fives i)) <->
        (i = 0 \/ byteAt Sample.fives i <> byteAt Sample.fives (i - 1)))).
Proof.
  intros Hall.
  destruct (Hall ViewHexWithASCII 1 ltac:(lia)) as [Hcolor _].
  destruct Hcolor as [H0 | Hne].
  - exists (paletteAt (Sample.reader [5; 5; 5; 9] [] [ViewHexWithASCII]) 5).
    vm_compute. apply list_elem_of_here.
  - discriminate H0.
  - apply Hne. reflexivity.
Qed.

Lemma color_on_change_witness :
  0 <= 3 < 4 /\
  colorsOf (column Sample.dots (Sample.reader [5; 5; 5; 9] [] [ViewHex])
              ViewHex 4 Sample.fives 3) =
    [paletteAt (Sample.reader [5; 5; 5; 9] [] [ViewHex]) 9] /\
  colorsOf (column Sample.dots (Sample.reader [5; 5; 5; 9] [] [ViewHex])
              ViewHex 4 Sample.fives 1) = [].
Proof.
  split; [lia|]. split.
  - apply (color_on_change Sample.dots (Sample.reader [5; 5; 5; 9] [] [ViewHex])
             ViewHex 4 Sample.fives 3). lia.
  - apply (color_on_change Sample.dots (Sample.reader [5; 5; 5; 9] [] [ViewHex])
             ViewHex 4 Sample.fives 1). lia.
Defined.

Lemma present_width_witness :
  0 <= 65 < 256 /\
  textWidth (writePresent Sample.dots (Sample.reader [65] [] [ViewDecWithASCII])
               ViewDecWithASCII 65) = 7.
Proof.
  split; [lia|].
  apply (present_width Sample.dots (Sample.reader [65] [] [ViewDecWithASCII])
           ViewDecWithASCII 65).
  lia.
Defined.

Lemma offset_widths_witness :
  0 <= 4096 < 2 ^ 63 /\
  exists rd,
    New {| Sample.data := []; Sample.pos := 0 |} [OffsetHex; OffsetDec; OffsetOct]
        (Some [ViewHex]) Sample.greys true 4096 = Returns rd /\
    (forall f, f ∈ [OffsetHex; OffsetDec; OffsetOct] -> f <> OffsetPercent ->
       offsetFormatterWidth rd !! f = Some (hexDigits 4096)) /\
    (4096 = 0 -> hexDigits 4096 = 1) /\
    (0 < 4096 -> 16 ^ (hexDigits 4096 - 1) <= 4096 < 16 ^ hexDigits 4096).
Proof.
  split; [split; [discriminate | reflexivity]|].
  apply offset_widths. split; [discriminate | reflexivity].
Defined.

Lemma read_counts_witness :
  configured (Sample.reader [1; 2; 3; 4; 5] [] [ViewHex]) /\
  Seek (r (Sample.reader [1; 2; 3; 4; 5] [] [ViewHex])) 0 SeekCurrent =
    ({| Sample.data := [1; 2; 3; 4; 5]; Sample.pos := 0 |}, (0, None)) /\
  ReadInto {| Sample.data := [1; 2; 3; 4; 5]; Sample.pos := 0 |} (replicate 16 0) =
    ({| Sample.data := [1; 2; 3; 4; 5]; Sample.pos := 5 |},
     ([1; 2; 3; 4; 5; 0; 0; 0; 0; 0; 0; 0; 0; 0; 0; 0], 5, None)) /\
  exists rd' line,
    Read Sample.dots (Sample.reader [1; 2; 3; 4; 5] [] [ViewHex]) =
      Some (rd', (line, None)) /\
    ReadBytes rd' = (ReadBytes (Sample.reader [1; 2; 3; 4; 5] [] [ViewHex]) + 5) mod 2 ^ 64.
Proof.
  split; [apply configured_over|].
  assert (Hseek :
    Seek (r (Sample.reader [1; 2; 3; 4; 5] [] [ViewHex])) 0 SeekCurrent =
      ({| Sample.data := [1; 2; 3; 4; 5]; Sample.pos := 0 |}, (0, None)))
    by reflexivity.
  assert (Hread :
    ReadInto {| Sample.data := [1; 2; 3; 4; 5]; Sample.pos := 0 |} (replicate 16 0) =
      ({| Sample.data := [1; 2; 3; 4; 5]; Sample.pos := 5 |},
       ([1; 2; 3; 4; 5; 0; 0; 0; 0; 0; 0; 0; 0; 0; 0; 0], 5, None)))
    by reflexivity.
  split; [exact Hseek|]. split; [exact Hread|].
  destruct (read_counts Sample.dots (Sample.reader [1; 2; 3; 4; 5] [] [ViewHex])
              {| Sample.data := [1; 2; 3; 4; 5]; Sample.pos := 0 |}
              {| Sample.data := [1; 2; 3; 4; 5]; Sample.pos := 5 |}
              0 [1; 2; 3; 4; 5; 0; 0; 0; 0; 0; 0; 0; 0; 0; 0; 0] 5
              (configured_over _ _ _ _) Hseek Hread)
    as [(rd' & line & HRead & Hcount & _) _].
  exists rd', line. split; [exact HRead | exact Hcount].
Defined.

Lemma read_failure_witness :
  configured (Sample.over Sample.Broken [OffsetHex] [ViewHex] 0) /\
  Seek (r (Sample.over Sample.Broken [OffsetHex] [ViewHex] 0)) 0 SeekCurrent =
    (Sample.Broken, (0, Some (IOError "seek"))) /\
  exists rd',
    Read Sample.dots (Sample.over Sample.Broken [OffsetHex] [ViewHex] 0) =
      Some (rd', ("", Some (IOError "seek"))) /\
    ReadBytes rd' = ReadBytes (Sample.over Sample.Broken [OffsetHex] [ViewHex] 0).
Proof.
  split; [apply configured_over|]. split; [reflexivity|].
  apply (read_failure Sample.dots (Sample.over Sample.Broken [OffsetHex] [ViewHex] 0)
           Sample.Broken 0 (IOError "seek")).
  - apply configured_over.
  - left. reflexivity.
Defined.

Lemma ascii_variants_color_every_byte_witness :
  withASCII ViewHexWithASCII = true /\ 0 <= 1 < 4 /\
  colorsOf (column Sample.dots (Sample.reader [5; 5; 5; 9] [] [ViewHexWithASCII])
              ViewHexWithASCII 4 Sample.fives 1) =
    [paletteAt (Sample.reader [5; 5; 5; 9] [] [ViewHexWithASCII]) 5;
     specialBreak (rcolors (Sample.reader [5; 5; 5; 9] [] [ViewHexWithASCII]));
     hilightBreak (rcolors (Sample.reader [5; 5; 5; 9] [] [ViewHexWithASCII]));
     specialBreak (rcolors (Sample.reader [5; 5; 5; 9] [] [ViewHexWithASCII]))].
Proof.
  split; [reflexivity | split; [lia|]].
  apply (ascii_variants_color_every_byte Sample.dots
           (Sample.reader [5; 5; 5; 9] [] [ViewHexWithASCII])
           ViewHexWithASCII 4 Sample.fives 1); [reflexivity | lia].
Defined.

End Instances.

(** ** The width of an offset *)

Section OffsetWidth.

Context `{ColorPackage} {S : Type} `{ReadSeekerCloser S}.

(** The digit loop writes [k] digits, where [k] is the least number of
    digits in base [b] that hold [u]. *)
Lemma digitsLoop_count (b : Z) (fuel : nat) :
  2 <= b ->
  forall u acc, 0 <= u < b ^ Z.of_nat (Datatypes.S fuel) ->
    exists k : nat,
      String.length (Fmt.digitsLoop (Datatypes.S fuel) b u acc) =
        (k + String.length acc)%nat /\
      (1 <= k)%nat /\ u < b ^ Z.of_nat k /\
      ((u = 0 /\ k = 1%nat) \/ b ^ (Z.of_nat k - 1) <= u).
Proof.
  intros Hb. induction fuel as [|fuel IH]; intros u acc Hu.
  - rewrite Z.pow_1_r in Hu.
    cbn [Fmt.digitsLoop]. destruct (u <? b) eqn:E; [|lia].
    exists 1%nat. cbn [String.length]. rewrite Z.pow_1_r.
    split; [reflexivity|]. split; [lia|]. split; [lia|].
    destruct (decide (u = 0)); [left; split; [assumption | reflexivity] | right].
    change (Z.of_nat 1 - 1) with 0. rewrite Z.pow_0_r. lia.
  - rewrite Nat2Z.inj_succ, Z.pow_succ_r in Hu by lia.
    change (Fmt.digitsLoop (Datatypes.S (Datatypes.S fuel)) b u acc) with
      (if u <? b then String (Fmt.digit u) acc
       else Fmt.digitsLoop (Datatypes.S fuel) b (u / b)
              (String (Fmt.digit (u mod b)) acc)).
    destruct (u <? b) eqn:E.
    + exists 1%nat. cbn [String.length]. rewrite Z.pow_1_r.
      split; [reflexivity|]. split; [lia|]. split; [lia|].
      destruct (decide (u = 0)); [left; split; [assumption | reflexivity] | right].
      change (Z.of_nat 1 - 1) with 0. rewrite Z.pow_0_r. lia.
    + assert (Hq : 1 <= u / b) by (apply Z.div_le_lower_bound; lia).
      destruct (IH (u / b) (String (Fmt.digit (u mod b)) acc))
        as (k & Hlen & Hk & Hlt & Hge).
      { split; [lia|]. apply Z.div_lt_upper_bound; lia. }
      exists (Datatypes.S k). rewrite Hlen. cbn [String.length].
      split; [lia|]. split; [lia|].
      rewrite Nat2Z.inj_succ, Z.pow_succ_r by lia.
      pose proof (Z.div_mod u b ltac:(lia)) as Hdm.
      pose proof (Z.mod_pos_bound u b ltac:(lia)) as Hm.
      split; [nia|]. right.
      destruct Hge as [[Hz _] | Hge]; [lia|].
      replace (Z.succ (Z.of_nat k) - 1) with (Z.succ (Z.of_nat k - 1)) by lia.
      rewrite Z.pow_succ_r by lia. nia.
Qed.

Lemma length_zeros (n : nat) : String.length (Fmt.zeros n) = n.
Proof. induction n as [|n IH]; simpl; [reflexivity | rewrite IH; reflexivity]. Qed.

Lemma length_append (a b : string) :
  String.length (a ++ b) = (String.length a + String.length b)%nat.
Proof. induction a as [|c a IH]; simpl; [reflexivity | rewrite IH; reflexivity]. Qed.

(** Zero padding: a number that fits the width fills it exactly, a
    longer one is printed in full. *)
Lemma fmtInteger_length (b w v : Z) :
  2 <= b -> 0 <= w -> 0 <= v < b ^ 64 ->
  (v < b ^ w -> Z.of_nat (String.length (Fmt.fmtInteger b (Some w) v)) = Z.max w 1) /\
  (b ^ w <= v -> w < Z.of_nat (String.length (Fmt.fmtInteger b (Some w) v))).
Proof.
  intros Hb Hw Hv.
  unfold Fmt.fmtInteger, Fmt.padLeft, Fmt.digits.
  destruct (v <? 0) eqn:E; [lia|]. rewrite Z.abs_eq by lia.
  destruct (digitsLoop_count b 63 Hb v "") as (k & Hlen & Hk & Hlt & Hge);
    [exact Hv|].
  rewrite length_append, length_zeros, Hlen. cbn [String.length].
  split.
  - intros Hfit.
    assert (Hkw : Z.of_nat k <= Z.max w 1).
    { destruct Hge as [[_ ->] | Hge].
      - lia.
      - destruct (Z.le_gt_cases (Z.of_nat k) w) as [|Hgt]; [lia|].
        assert (b ^ w <= b ^ (Z.of_nat k - 1)) by (apply Z.pow_le_mono_r; lia).
        lia. }
    lia.
  - intros Hover.
    assert (w < Z.of_nat k).
    { destruct (Z.lt_ge_cases w (Z.of_nat k)) as [|Hle]; [assumption|].
      assert (b ^ Z.of_nat k <= b ^ w) by (apply Z.pow_le_mono_r; lia). lia. }
    lia.
Qed.

Lemma RuneCount_underscores (n : nat) :
  Fmt.RuneCount (repeatString "_" n) = Z.of_nat n.
Proof.
  induction n as [|n IH]; [reflexivity|].
  cbn [repeatString]. rewrite RuneCount_app, IH.
  change (Fmt.RuneCount "_") with 1. lia.
Qed.

Lemma hexDigits_pos (n : Z) : 1 <= hexDigits n.
Proof.
  unfold hexDigits. destruct (n =? 0); [lia|].
  pose proof (Z.log2_nonneg n).
  assert (0 <= Z.log2 n / 4) by (apply Z.div_pos; lia). lia.
Qed.

(** What a reader made by [New] prints for an offset in hex, dec or oct. *)
Lemma New_offsetText (src : S) (offsets : list OffsetFormatter)
    (views : list ByteFormatter) (pal : list AnsiColor) (show : bool)
    (filesize : Z) (rd : Reader S) (f : OffsetFormatter) (offset : Z) :
  New src offsets (Some views) pal show filesize = Returns rd ->
  f ∈ offsets -> f <> OffsetPercent ->
  offsetFormatterWidth rd !! f = Some (hexLen filesize) /\
  offsetText rd f offset =
    Some (Fmt.fmtInteger (offsetBase f) (Some (hexLen filesize)) offset ++ "").
Proof.
  intros Hnew Hf Hne.
  destruct (New_returns src offsets views pal show filesize)
    as (rd' & Hnew' & _ & _ & _ & _ & _ & _ & _ & _ & Hinv & Hall).
  rewrite Hnew in Hnew'. injection Hnew' as <-.
  destruct (Hall f Hf) as [w Hw].
  destruct (Hinv f w Hw) as [-> Hfmt].
  assert (Hd : derivedWidth filesize f = hexLen filesize)
    by (destruct f; try contradiction; reflexivity).
  rewrite Hd in Hw, Hfmt. split; [exact Hw|].
  unfold offsetText, formatOffset.
  change (offsetFormatterFormat (sbReset rd)) with (offsetFormatterFormat rd).
  rewrite Hfmt. cbn [default from_option id].
  pose proof (hexLen_bounds filesize) as Hb.
  destruct f; try contradiction;
    rewrite Sprintf_offset by (discriminate || assumption); reflexivity.
Qed.

(** X1. For a reader made by [New] for a file of [filesize] bytes, an
    offset printed in hex, dec or oct is zero padded to the derived
    width, the number [w] of hex digits of [filesize], which is also the
    length of the underscores in the header: the text has exactly [w]
    characters when the offset is below [base^w] and more otherwise.  A
    hex offset within the file always has exactly [w] characters. *)
Theorem offset_column_width (src : S) (offsets : list OffsetFormatter)
    (views : list ByteFormatter) (pal : list AnsiColor) (show : bool)
    (filesize : Z) (f : OffsetFormatter) (offset : Z) :
  0 <= filesize < 2 ^ 63 ->
  0 <= offset < 2 ^ 63 ->
  f ∈ offsets ->
  f <> OffsetPercent ->
  exists rd s,
    New src offsets (Some views) pal show filesize = Returns rd /\
    offsetText rd f offset = Some s /\
    Fmt.RuneCount (offsetHeader rd f) = hexDigits filesize /\
    (offset < offsetBase f ^ hexDigits filesize ->
       Z.of_nat (String.length s) = hexDigits filesize) /\
    (offsetBase f ^ hexDigits filesize <= offset ->
       hexDigits filesize < Z.of_nat (String.length s)) /\
    (f = OffsetHex -> offset <= filesize ->
       Z.of_nat (String.length s) = hexDigits filesize).
Proof.
  intros Hsize Hoff Hf Hne.
  destruct (New_returns src offsets views pal show filesize) as (rd & Hnew & _).
  destruct (New_offsetText src offsets views pal show filesize rd f offset
              Hnew Hf Hne) as [Hw Htext].
  rewrite (hexLen_hexDigits filesize Hsize) in Hw, Htext.
  pose proof (hexDigits_pos filesize) as Hpos.
  set (w := hexDigits filesize) in *.
  assert (Hbase : 2 <= offsetBase f) by (destruct f; cbn; lia).
  assert (Hrange : 0 <= offset < offsetBase f ^ 64).
  { split; [lia|].
    apply Z.lt_le_trans with (2 ^ 64).
    - assert (2 ^ 63 < 2 ^ 64) by (apply Z.pow_lt_mono_r; lia). lia.
    - apply Z.pow_le_mono_l. lia. }
  destruct (fmtInteger_length (offsetBase f) w offset Hbase ltac:(lia) Hrange)
    as [Hfit Hover].
  assert (Hlen : forall t, String.length (t ++ "") = String.length t).
  { intros t. rewrite length_append. cbn [String.length]. lia. }
  eexists rd, _. split; [exact Hnew|]. split; [exact Htext|].
  rewrite Hlen. split; [|split; [|split]].
  - unfold offsetHeader. rewrite Hw. cbn [default from_option id].
    rewrite RuneCount_underscores. lia.
  - intros Hlt. rewrite (Hfit Hlt). lia.
  - exact Hover.
  - intros -> Hle. rewrite Hfit; [lia|].
    cbn [offsetBase]. destruct (decide (filesize = 0)) as [Hz|Hnz].
    + assert (offset = 0) by lia. subst offset.
      apply Z.pow_pos_nonneg; lia.
    + pose proof (hexDigits_spec filesize ltac:(lia)). fold w in H1. lia.
Qed.

End OffsetWidth.

(** ** Rows and the header above them *)

Section Rows.

Context `{ColorPackage} {S : Type} `{ReadSeekerCloser S}.
Variable asciiByteToChar : Z -> Z.

Lemma string_app_assoc (a b c : string) : (a ++ b) ++ c = a ++ (b ++ c).
Proof.
  induction a as [|x a IH]; [reflexivity|].
  change (String x ((a ++ b) ++ c) = String x (a ++ (b ++ c))).
  f_equal. exact IH.
Qed.

Lemma textOf_app (xs ys : list write) :
  textOf (xs ++ ys) = textOf xs ++ textOf ys.
Proof.
  induction xs as [|[c|t] xs IH]; cbn [app textOf fold_right]; [reflexivity | |].
  - exact IH.
  - fold (textOf (xs ++ ys)). fold (textOf xs). rewrite IH.
    symmetry. apply string_app_assoc.
Qed.

Lemma textWidth_app (xs ys : list write) :
  textWidth (xs ++ ys) = textWidth xs + textWidth ys.
Proof. unfold textWidth. rewrite textOf_app. apply RuneCount_app. Qed.

Lemma textWidth_writeColor (tmp : list Z) (i : Z) (c : string) :
  textWidth (writeColor tmp i c) = 0.
Proof. unfold writeColor. destruct (changed tmp i); reflexivity. Qed.

Lemma textWidth_writePresent (rd : Reader S) (f : ByteFormatter) (b : Z) :
  0 <= b < 256 ->
  textWidth (writePresent asciiByteToChar rd f b) = declaredWidth f.
Proof.
  intros Hb. unfold textWidth.
  destruct f; cbn [writePresent textOf fold_right declaredWidth];
    rewrite ?RuneCount_app, ?RuneCount_fmtC, ?integer_width by (auto 6 || assumption);
    reflexivity.
Qed.

Lemma textWidth_writePadding (f : ByteFormatter) :
  f <> ViewBit -> textWidth (writePadding f) = declaredWidth f.
Proof. intros Hf. destruct f; try contradiction; reflexivity. Qed.

Lemma textWidth_writeSpace (f : ByteFormatter) (i : Z) :
  textWidth (writeSpace f i) =
    if (i <? 15) && negb (bool_decide (f = ViewASCII)) then 1 else 0.
Proof. unfold writeSpace. destruct (i <? 15), f; reflexivity. Qed.

Lemma byteAt_range (tmp : list Z) (i : Z) :
  Forall (fun b => 0 <= b < 256) tmp -> 0 <= byteAt tmp i < 256.
Proof.
  intros Hall. unfold byteAt.
  destruct (tmp !! Z.to_nat i) as [b|] eqn:E; cbn; [|lia].
  rewrite Forall_forall in Hall. apply Hall. eapply list_elem_of_lookup_2, E.
Qed.

(** The width of one column: the space in the middle of the row, the
    byte or its padding, and the space after the column. *)
Lemma textWidth_column (rd : Reader S) (f : ByteFormatter) (rb : Z)
    (tmp : list Z) (i : Z) :
  Forall (fun b => 0 <= b < 256) tmp ->
  f <> ViewBit \/ i < rb ->
  textWidth (column asciiByteToChar rd f rb tmp i) =
    (if i =? 8 then 1 else 0) + declaredWidth f +
    (if (i <? 15) && negb (bool_decide (f = ViewASCII)) then 1 else 0).
Proof.
  intros Hall Hf. unfold column.
  rewrite textWidth_app.
  replace (textWidth (if i =? 8 then [WText " "] else []))
    with (if i =? 8 then 1 else 0) by (destruct (i =? 8); reflexivity).
  destruct (rb >? i) eqn:E.
  - rewrite !textWidth_app, textWidth_writeColor, textWidth_writeSpace,
      textWidth_writePresent by (apply byteAt_range; exact Hall).
    lia.
  - rewrite !textWidth_app, textWidth_writeColor, textWidth_writeSpace,
      textWidth_writePadding by (destruct Hf; [assumption | lia]).
    lia.
Qed.

(** The sixteen columns of a formatter have the width [rowWidth],
    however many bytes were read; for bit this needs a full record. *)
Lemma textWidth_row (rd : Reader S) (f : ByteFormatter) (rb : Z) (tmp : list Z) :
  Forall (fun b => 0 <= b < 256) tmp ->
  f <> ViewBit \/ 16 <= rb ->
  textWidth (columns ≫= column asciiByteToChar rd f rb tmp) = rowWidth f.
Proof.
  intros Hall Hf.
  assert (Hcol : forall i, 0 <= i < 16 ->
            textWidth (column asciiByteToChar rd f rb tmp i) =
              (if i =? 8 then 1 else 0) + declaredWidth f +
              (if (i <? 15) && negb (bool_decide (f = ViewASCII)) then 1 else 0)).
  { intros i Hi. apply textWidth_column; [exact Hall|].
    destruct Hf; [left; assumption | right; lia]. }
  change columns with [0; 1; 2; 3; 4; 5; 6; 7; 8; 9; 10; 11; 12; 13; 14; 15].
  cbn [mbind list_bind mjoin list_join fmap list_fmap app].
  rewrite !textWidth_app, !Hcol by lia.
  change (textWidth []) with 0. unfold rowWidth.
  destruct f; cbn; reflexivity.
Qed.

(** X2. With hex, dec, oct and ascii every row has the same width as the
    block of labels that [Header] writes for the formatter, however many
    bytes were read; with bit this holds for a full record of 16 bytes.
    The width is 16 columns, one space in the middle and, except for
    ascii, 15 separating spaces.  Color escapes are not counted. *)
Theorem header_as_wide_as_rows (rd : Reader S) (f : ByteFormatter) (rb : Z)
    (tmp : list Z) :
  Forall (fun b => 0 <= b < 256) tmp ->
  withASCII f = false ->
  f <> ViewBit \/ 16 <= rb ->
  exists labels,
    headerBlock f = Some labels /\
    Fmt.RuneCount labels = rowWidth f /\
    textWidth (columns ≫= column asciiByteToChar rd f rb tmp) = rowWidth f.
Proof.
  intros Hall Hplain Hf.
  assert (Hlabels : exists labels,
            headerBlock f = Some labels /\ Fmt.RuneCount labels = rowWidth f).
  { destruct f; try discriminate Hplain; eexists;
      (split; [vm_compute; reflexivity | reflexivity]). }
  destruct Hlabels as (labels & Hhead & Hwidth).
  exists labels. split; [exact Hhead|]. split; [exact Hwidth|].
  apply textWidth_row; assumption.
Qed.

End Rows.

(** ** The tables of [New] *)

Section Tables.

Context `{ColorPackage} {S : Type} `{ReadSeekerCloser S}.

(** The loop over the offset formatters adds an entry for each formatter
    of the list that has none yet, and nothing else. *)
Lemma derive_exact (filesize : Z) (offsets : list OffsetFormatter) :
  forall formats widths,
    exists formats' widths',
      fold_left (deriveOne filesize) offsets (Returns (formats, widths)) =
        Returns (formats', widths') /\
      forall f,
        widths' !! f =
          match widths !! f with
          | Some w => Some w
          | None =>
              if decide (f ∈ offsets) then Some (derivedWidth filesize f) else None
          end /\
        formats' !! f =
          match widths !! f with
          | Some _ => formats !! f
          | None =>
              if decide (f ∈ offsets)
              then Some (printfFormat f (derivedWidth filesize f))
              else formats !! f
          end.
Proof.
  induction offsets as [|g offsets IH]; intros formats widths.
  - exists formats, widths. split; [reflexivity|].
    intros f. rewrite !decide_False by apply not_elem_of_nil.
    destruct (widths !! f); split; reflexivity.
  - cbn [fold_left deriveOne].
    destruct (widths !! g) as [wg|] eqn:Hg.
    + destruct (IH formats widths) as (formats' & widths' & Hfold & Hlook).
      exists formats', widths'. split; [exact Hfold|].
      intros f. destruct (Hlook f) as [Hw Hf]. rewrite Hw, Hf.
      destruct (widths !! f) eqn:Hwf; [split; reflexivity|].
      assert (f <> g) by congruence.
      destruct (decide (f ∈ offsets)) as [Hin|Hout].
      * rewrite !decide_True by (apply elem_of_cons; auto). split; reflexivity.
      * rewrite !decide_False by (rewrite elem_of_cons; tauto). split; reflexivity.
    + rewrite setWidth_insert, lookup_insert_eq.
      destruct (IH (<[g := printfFormat g (derivedWidth filesize g)]> formats)
                   (<[g := derivedWidth filesize g]> widths))
        as (formats' & widths' & Hfold & Hlook).
      exists formats', widths'. split; [exact Hfold|].
      intros f. destruct (Hlook f) as [Hw Hf]. rewrite Hw, Hf.
      destruct (decide (g = f)) as [->|Hne].
      * rewrite !lookup_insert_eq, Hg.
        rewrite !decide_True by (apply elem_of_cons; auto). split; reflexivity.
      * rewrite !lookup_insert_ne by assumption.
        destruct (widths !! f) eqn:Hwf; [split; reflexivity|].
        destruct (decide (f ∈ offsets)) as [Hin|Hout].
        -- rewrite !decide_True by (apply elem_of_cons; auto). split; reflexivity.
        -- rewrite !decide_False by (rewrite elem_of_cons; intros [?|?]; congruence).
           split; reflexivity.
Qed.

(** X3. [New] panics on a nil slice of byte formatters.  For a slice
    that is not nil and offset formatters among the four constants the
    reader switches on, it returns a reader that has read 0 bytes, counts
    its formatters by the lengths of the two slices, and whose two tables
    hold an entry exactly for the offset formatters of the list, repeated
    or not: width 8 and the format [%07.3f%%] for percent, and for hex,
    dec and oct the length of the size in hex with a zero-padding format
    of that width. *)
Theorem New_tables (src : S) (offsets : list OffsetFormatter)
    (views : list ByteFormatter) (pal : list AnsiColor) (show : bool)
    (filesize : Z) :
  Forall (fun f => f ∈ [OffsetHex; OffsetDec; OffsetOct; OffsetPercent]) offsets ->
  New src offsets None pal show filesize = Panics "nil formatter" /\
  exists rd,
    New src offsets (Some views) pal show filesize = Returns rd /\
    ReadBytes rd = 0 /\
    charFormatterCount rd = Z.of_nat (length views) /\
    offsetFormatterCount rd = Z.of_nat (length offsets) /\
    forall f,
      offsetFormatterWidth rd !! f =
        (if decide (f ∈ offsets) then Some (derivedWidth filesize f) else None) /\
      offsetFormatterFormat rd !! f =
        (if decide (f ∈ offsets)
         then Some (printfFormat f (derivedWidth filesize f)) else None).
Proof.
  intros _.
  split; [reflexivity|].
  destruct (derive_exact filesize offsets ∅ ∅) as (formats & widths & Hfold & Hlook).
  unfold New. rewrite Hfold. eexists. split; [reflexivity|].
  cbn [ReadBytes charFormatterCount offsetFormatterCount offsetFormatterWidth
       offsetFormatterFormat].
  repeat (split; [reflexivity|]).
  intros f. destruct (Hlook f) as [Hw Hf]. rewrite Hw, Hf, !lookup_empty.
  split; reflexivity.
Qed.

End Tables.

(** ** What [Read] changes and what it depends on *)

Section Frame.

Context `{ColorPackage} {S : Type} `{ReadSeekerCloser S}.
Variable asciiByteToChar : Z -> Z.

Lemma formatOffset_writes (rd rd' : Reader S) (f : OffsetFormatter) (offset : Z) :
  formatOffset rd f offset = Some rd' ->
  exists s, rd' = sbWrite rd [WText s].
Proof.
  unfold formatOffset. intros Hfo.
  destruct f;
    match type of Hfo with
    | context [Fmt.Sprintf ?fmt ?a] => destruct (Fmt.Sprintf fmt a) as [s|]
    end; try discriminate Hfo;
    injection Hfo as <-; exists s; reflexivity.
Qed.

Lemma getoffsetLeft_writes (rd rd' : Reader S) (offset : Z) (text : string) :
  getoffsetLeft rd offset = Some (rd', text) ->
  exists ws, rd' = withBuilder rd ws /\ text = flatten ws.
Proof.
  unfold getoffsetLeft. intros Hg.
  destruct (0 <? offsetFormatterCount (sbReset rd)).
  - destruct (offsetFormatter _ !! 0%nat) as [f|]; [|discriminate Hg].
    cbn [mbind option_bind] in Hg.
    match type of Hg with
    | context [formatOffset ?rd0 f offset] =>
        destruct (formatOffset rd0 f offset) as [rd1|] eqn:Hfo; [|discriminate Hg];
        destruct (formatOffset_writes rd0 rd1 f offset Hfo) as [s ->]
    end.
    cbn [mbind option_bind] in Hg. injection Hg as <- <-.
    eexists. split; reflexivity.
  - injection Hg as <- <-. eexists. split; reflexivity.
Qed.

Lemma getoffsetRight_writes (rd rd' : Reader S) (offset : Z) (text : string) :
  getoffsetRight rd offset = Some (rd', text) ->
  exists ws, rd' = withBuilder rd ws /\ text = flatten ws.
Proof.
  unfold getoffsetRight. intros Hg.
  destruct (1 <? offsetFormatterCount (sbReset rd)).
  - destruct (offsetFormatter _ !! 1%nat) as [f|]; [|discriminate Hg].
    cbn [mbind option_bind] in Hg.
    match type of Hg with
    | context [formatOffset ?rd0 f offset] =>
        destruct (formatOffset rd0 f offset) as [rd1|] eqn:Hfo; [|discriminate Hg];
        destruct (formatOffset_writes rd0 rd1 f offset Hfo) as [s ->]
    end.
    cbn [mbind option_bind] in Hg. injection Hg as <- <-.
    eexists. split; reflexivity.
  - injection Hg as <- <-. eexists. split; reflexivity.
Qed.

(** Whatever [Read] returns, the reader it leaves is the old one with a
    new source state, counter and builder. *)
Lemma Read_writes (rd rd' : Reader S) (res : string * option error) :
  Read asciiByteToChar rd = Some (rd', res) ->
  exists src n ws, rd' = withBuilder (withReadBytes (withSource rd src) n) ws.
Proof.
  unfold Read. intros HRead.
  destruct (Seek (r rd) 0 SeekCurrent) as [src [offset [e|]]].
  { injection HRead as <- _. exists src, (ReadBytes rd), (sb rd). reflexivity. }
  destruct (getoffsetLeft (withSource rd src) offset) as [[rd1 left]|] eqn:Hl;
    [|discriminate HRead].
  destruct (getoffsetLeft_writes _ _ _ _ Hl) as (ws1 & -> & _).
  cbn [mbind option_bind] in HRead.
  destruct (getoffsetRight (withBuilder (withSource rd src) ws1) offset)
    as [[rd2 right]|] eqn:Hr; [|discriminate HRead].
  destruct (getoffsetRight_writes _ _ _ _ Hr) as (ws2 & -> & _).
  cbn [mbind option_bind] in HRead.
  match type of HRead with
  | context [ReadInto ?s ?p] => destruct (ReadInto s p) as [src' [[p' rb] [e|]]]
  end.
  - injection HRead as <- _. exists src', (ReadBytes rd). eexists. reflexivity.
  - injection HRead as <- _. eexists src', _, _. reflexivity.
Qed.

(** X4. [Read] never changes the configuration of the reader: whatever
    the call returns, the formatters, their counts, the file size, the
    splitter, the header flag, the offset tables and the colors are those
    of before.  Only the source, [ReadBytes] and the builder can differ,
    so a configured reader stays configured. *)
Theorem Read_keeps_configuration (rd rd' : Reader S) (res : string * option error) :
  Read asciiByteToChar rd = Some (rd', res) ->
  sameConfiguration rd rd' /\ (configured rd -> configured rd').
Proof.
  intros HRead.
  destruct (Read_writes rd rd' res HRead) as (src & n & ws & ->).
  split.
  - repeat split.
  - intros Hc. exact Hc.
Qed.

(** X5. The result of [Read] does not depend on what the builder held
    before the call: the line, the error, the source state and the
    counter are the same for any earlier contents. *)
Theorem Read_ignores_builder (rd : Reader S) (ws : list write) :
  prod_map sbReset id <$> Read asciiByteToChar (withBuilder rd ws) =
  prod_map sbReset id <$> Read asciiByteToChar rd.
Proof.
  unfold Read.
  change (r (withBuilder rd ws)) with (r rd).
  destruct (Seek (r rd) 0 SeekCurrent) as [src [offset [e|]]]; [reflexivity|].
  change (getoffsetLeft (withSource (withBuilder rd ws) src) offset)
    with (getoffsetLeft (withSource rd src) offset).
  reflexivity.
Qed.

End Frame.

(** ** The line *)

Section Line.

Context `{ColorPackage} {S : Type} `{ReadSeekerCloser S}.
Variable asciiByteToChar : Z -> Z.

Lemma string_app_nil_r (a : string) : a ++ "" = a.
Proof.
  induction a as [|x a IH]; [reflexivity|].
  change (String x (a ++ "") = String x a). f_equal. exact IH.
Qed.

Lemma flatten_app (xs ys : list write) :
  flatten (xs ++ ys) = flatten xs ++ flatten ys.
Proof.
  induction xs as [|x xs IH]; [reflexivity|].
  change (written x ++ flatten (xs ++ ys) = (written x ++ flatten xs) ++ flatten ys).
  rewrite IH. symmetry. apply string_app_assoc.
Qed.

(** The rows of the formatters with the splitter between them. *)
Lemma blocks_from (rd : Reader S) (rb : Z) (tmp : list Z) (fs : list ByteFormatter) :
  forall k : nat,
    charFormatterCount rd = Z.of_nat k + Z.of_nat (length fs) ->
    mjoin (imap (fun didx f => block asciiByteToChar rd rb tmp (Z.of_nat (k + didx)) f) fs) =
      between [WColor (splitterBreak (rcolors rd)); WText (Splitter rd)]
        ((fun f => columns ≫= column asciiByteToChar rd f rb tmp) <$> fs).
Proof.
  induction fs as [|f fs IH]; intros k Hcount; [reflexivity|].
  rewrite imap_cons. cbn [mjoin list_join fmap list_fmap].
  unfold block at 1. rewrite Nat.add_0_r.
  cbn [length] in Hcount.
  destruct fs as [|f' fs].
  - destruct (Z.of_nat k <? charFormatterCount rd - 1) eqn:E; [cbn [length] in Hcount; lia|].
    cbn. rewrite !app_nil_r. reflexivity.
  - destruct (Z.of_nat k <? charFormatterCount rd - 1) eqn:E;
      [|cbn [length] in Hcount; lia].
    cbn [between]. rewrite <- !app_assoc. f_equal. f_equal.
    rewrite <- (IH (Datatypes.S k)) by (cbn [length] in *; lia).
    f_equal. apply imap_ext. intros i x _. unfold compose.
    replace (k + Datatypes.S i)%nat with (Datatypes.S k + i)%nat by lia. reflexivity.
Qed.

(** X6. When the count of byte formatters is the length of their list,
    as [New] sets it, the data part of a line is the rows of the
    formatters in order with the colored splitter between any two of
    them, and no splitter after the last. *)
Theorem blocks_between (rd : Reader S) (rb : Z) (tmp : list Z) :
  charFormatterCount rd = Z.of_nat (length (charFormatters rd)) ->
  blocks asciiByteToChar rd rb tmp =
    between [WColor (splitterBreak (rcolors rd)); WText (Splitter rd)]
      ((fun f => columns ≫= column asciiByteToChar rd f rb tmp) <$> charFormatters rd).
Proof.
  intros Hcount. unfold blocks.
  rewrite <- (blocks_from rd rb tmp (charFormatters rd) 0) by (rewrite Hcount; lia).
  reflexivity.
Qed.

Lemma formatOffset_offsetText (rd : Reader S) (f : OffsetFormatter) (offset : Z) :
  formatOffset rd f offset =
    (fun s => sbWrite rd [WText s]) <$> offsetText rd f offset.
Proof.
  unfold offsetText, formatOffset.
  change (offsetFormatterFormat (sbReset rd)) with (offsetFormatterFormat rd).
  change (fileSize (sbReset rd)) with (fileSize rd).
  destruct f;
    match goal with
    | |- context [Fmt.Sprintf ?fmt ?a] => destruct (Fmt.Sprintf fmt a) as [s|]
    end; cbn; try reflexivity;
    unfold sbString; cbn; rewrite string_app_nil_r; reflexivity.
Qed.

(** The text of an offset depends on the tables and the file size only. *)
Lemma offsetColumn_same (rd rd' : Reader S) (i : nat) (offset : Z) :
  offsetFormatter rd' = offsetFormatter rd ->
  offsetFormatterFormat rd' = offsetFormatterFormat rd ->
  fileSize rd' = fileSize rd ->
  offsetColumn rd' i offset = offsetColumn rd i offset.
Proof.
  intros Hfs Hfmt Hsize. unfold offsetColumn. rewrite Hfs.
  destruct (offsetFormatter rd !! i) as [f|]; [|reflexivity].
  unfold offsetText, formatOffset.
  change (offsetFormatterFormat (sbReset rd')) with (offsetFormatterFormat rd').
  change (offsetFormatterFormat (sbReset rd)) with (offsetFormatterFormat rd).
  change (fileSize (sbReset rd')) with (fileSize rd').
  change (fileSize (sbReset rd)) with (fileSize rd).
  rewrite Hfmt, Hsize.
  destruct f;
    match goal with
    | |- context [Fmt.Sprintf ?fmt ?a] => destruct (Fmt.Sprintf fmt a) as [s|]
    end; reflexivity.
Qed.

Lemma offsetText_configured (rd : Reader S) (f : OffsetFormatter) (offset : Z) :
  configured rd -> f ∈ offsetFormatter rd ->
  exists s, offsetText rd f offset = Some s.
Proof.
  intros Hc Hf.
  destruct (formatOffset_configured rd f offset Hc Hf) as [s Hs].
  rewrite formatOffset_offsetText in Hs.
  destruct (offsetText rd f offset) as [t|]; [eexists; reflexivity | discriminate Hs].
Qed.

Lemma getoffsetLeft_text (rd : Reader S) (offset : Z) :
  configured rd ->
  exists ws,
    getoffsetLeft rd offset =
      Some (withBuilder rd ws,
            if 0 <? offsetFormatterCount rd
            then offsetBreak (rcolors rd) ++ offsetColumn rd 0 offset ++
                 splitterBreak (rcolors rd) ++ Splitter rd
            else "").
Proof.
  intros Hc. unfold getoffsetLeft.
  change (offsetFormatterCount (sbReset rd)) with (offsetFormatterCount rd).
  destruct (0 <? offsetFormatterCount rd) eqn:E; [|eexists; reflexivity].
  destruct (configured_lookup rd 0 Hc) as (f & Hf & Hin); [lia|].
  change (offsetFormatter (sbWrite (sbReset rd) _)) with (offsetFormatter rd).
  unfold offsetColumn. rewrite Hf. cbn [mbind option_bind].
  rewrite formatOffset_offsetText.
  change (offsetText (sbWrite (sbReset rd) _) f offset) with (offsetText rd f offset).
  destruct (offsetText_configured rd f offset Hc Hin) as [s ->].
  eexists. cbn [fmap option_fmap option_map mbind option_bind default from_option id].
  unfold sbString. cbn [sb sbWrite sbReset withBuilder app flatten fold_right written].
  rewrite string_app_nil_r. reflexivity.
Qed.

Lemma getoffsetRight_text (rd : Reader S) (offset : Z) :
  configured rd ->
  exists ws,
    getoffsetRight rd offset =
      Some (withBuilder rd ws,
            if 1 <? offsetFormatterCount rd
            then splitterBreak (rcolors rd) ++ Splitter rd ++
                 offsetBreak (rcolors rd) ++ offsetColumn rd 1 offset
            else "").
Proof.
  intros Hc. unfold getoffsetRight.
  change (offsetFormatterCount (sbReset rd)) with (offsetFormatterCount rd).
  destruct (1 <? offsetFormatterCount rd) eqn:E; [|eexists; reflexivity].
  destruct (configured_lookup rd 1 Hc) as (f & Hf & Hin); [lia|].
  change (offsetFormatter (sbWrite _ _)) with (offsetFormatter rd).
  unfold offsetColumn. rewrite Hf. cbn [mbind option_bind].
  rewrite formatOffset_offsetText.
  match goal with
  | |- context [offsetText ?rd0 f offset] =>
      change (offsetText rd0 f offset) with (offsetText rd f offset)
  end.
  destruct (offsetText_configured rd f offset Hc Hin) as [s ->].
  eexists. cbn [fmap option_fmap option_map mbind option_bind default from_option id].
  unfold sbString. cbn [sb sbWrite sbReset withBuilder app flatten fold_right written].
  rewrite string_app_nil_r. reflexivity.
Qed.

(** X7. The line of a successful [Read] on a configured reader is, in
    this order: the left offset with its color and the splitter when
    there is an offset formatter, the data part for the bytes read, and
    the splitter and the right offset when there is a second offset
    formatter.  Both offsets show the position before the read; offset
    formatters after the second are not shown. *)
Theorem Read_line (rd : Reader S) (src src' : S) (offset : Z)
    (p : list Z) (rb : Z) :
  configured rd ->
  Seek (r rd) 0 SeekCurrent = (src, (offset, None)) ->
  ReadInto src (replicate 16 0) = (src', (p, rb, None)) ->
  exists rd',
    Read asciiByteToChar rd =
      Some (rd',
            ((if 0 <? offsetFormatterCount rd
              then offsetBreak (rcolors rd) ++ offsetColumn rd 0 offset ++
                   splitterBreak (rcolors rd) ++ Splitter rd
              else "") ++
             flatten (blocks asciiByteToChar rd rb (resize 16 0 p)) ++
             (if 1 <? offsetFormatterCount rd
              then splitterBreak (rcolors rd) ++ Splitter rd ++
                   offsetBreak (rcolors rd) ++ offsetColumn rd 1 offset
              else ""),
             None)).
Proof.
  intros Hc Hseek Hread. unfold Read. rewrite Hseek.
  destruct (getoffsetLeft_text (withSource rd src) offset Hc) as [ws1 H1].
  rewrite H1. cbn [mbind option_bind].
  destruct (getoffsetRight_text (withBuilder (withSource rd src) ws1) offset Hc)
    as [ws2 H2].
  rewrite H2. cbn [mbind option_bind].
  change (r (sbWrite (sbReset (withBuilder (withBuilder (withSource rd src) ws1) ws2)) _))
    with src.
  rewrite Hread. eexists. f_equal. f_equal. f_equal.
  unfold sbString.
  cbn [sb sbWrite sbReset withBuilder withReadBytes withSource].
  rewrite !flatten_app.
  cbn [app flatten fold_right written].
  rewrite !string_app_nil_r, !string_app_assoc.
  change ("" ++ ?x) with x.
  rewrite (offsetColumn_same rd (withSource rd src) 0) by reflexivity.
  rewrite (offsetColumn_same rd (withBuilder (withSource rd src) ws1) 1) by reflexivity.
  reflexivity.
Qed.

End Line.

(** ** The command: the palette and the dump loop *)

Section Palette.

Context {C : Type} (zero : C) (defaultCharacterColors : gmap Z C) (defaultColor : C).

Lemma initPalette_upto (n : nat) :
  (n <= 256)%nat ->
  let palette :=
    fold_left
      (fun palette i =>
         <[Z.to_nat i := default defaultColor (defaultCharacterColors !! i)]> palette)
      (Z.of_nat <$> seq 0 n) (replicate 256 zero) in
  length palette = 256%nat /\
  forall i : nat,
    palette !! i =
      if (i <? n)%nat then Some (default defaultColor (defaultCharacterColors !! Z.of_nat i))
      else if (i <? 256)%nat then Some zero else None.
Proof.
  induction n as [|n IH]; intros Hn palette.
  - subst palette. cbn [seq fmap list_fmap fold_left].
    split; [apply length_replicate|]. intros i.
    change (i <? 0)%nat with false. cbv iota.
    destruct (i <? 256)%nat eqn:E.
    + apply lookup_replicate_2. apply Nat.ltb_lt in E. lia.
    + apply lookup_ge_None_2. rewrite length_replicate.
      apply Nat.ltb_ge in E. lia.
  - destruct (IH ltac:(lia)) as [Hlen Hlook].
    subst palette. rewrite seq_S, fmap_app, fold_left_app.
    cbn [fmap list_fmap fold_left Nat.add]. rewrite Nat2Z.id.
    split; [rewrite length_insert; exact Hlen|].
    intros i. destruct (decide (i = n)) as [->|Hne].
    + rewrite list_lookup_insert_eq by lia.
      replace (n <? Datatypes.S n)%nat with true by (symmetry; apply Nat.ltb_lt; lia).
      reflexivity.
    + rewrite list_lookup_insert_ne by congruence. rewrite Hlook.
      destruct (i <? n)%nat eqn:E1, (i <? Datatypes.S n)%nat eqn:E2;
        try reflexivity.
      * apply Nat.ltb_lt in E1. apply Nat.ltb_ge in E2. lia.
      * apply Nat.ltb_ge in E1. apply Nat.ltb_lt in E2. lia.
Qed.

(** X8. The palette that [getParams] builds has an entry for the bytes
    0 to 254: the color of the table of defaults, or the default color
    for a byte the table does not have.  The loop stops before 255, so
    byte 255 keeps the zero value of the color type whatever the table
    and the default color are. *)
Theorem initPalette_entries (i : nat) :
  initPalette zero defaultCharacterColors defaultColor !! i =
    if (i <? 255)%nat
    then Some (default defaultColor (defaultCharacterColors !! Z.of_nat i))
    else if (i =? 255)%nat then Some zero else None.
Proof.
  destruct (initPalette_upto 255 ltac:(lia)) as [_ Hlook].
  unfold initPalette. rewrite Hlook.
  destruct (i <? 255)%nat eqn:E1; [reflexivity|].
  destruct (i =? 255)%nat eqn:E2.
  - apply Nat.eqb_eq in E2. subst i. reflexivity.
  - apply Nat.ltb_ge in E1. apply Nat.eqb_neq in E2.
    replace (i <? 256)%nat with false by (symmetry; apply Nat.ltb_ge; lia).
    reflexivity.
Qed.

End Palette.

Section Dump.

Context `{ColorPackage}.
Variable asciiByteToChar : Z -> Z.

Lemma memory_Seek (d : list Z) (p : Z) :
  0 <= p ->
  Seek {| Sample.data := d; Sample.pos := p |} 0 SeekCurrent =
    ({| Sample.data := d; Sample.pos := p |}, (p, None)).
Proof.
  intros Hp. cbn [Seek Sample.memory_source]. unfold Sample.memorySeek.
  cbn [Sample.pos Sample.data]. change (SeekCurrent =? 0) with false.
  change (SeekCurrent =? 1) with true. cbv iota. rewrite Z.add_0_r.
  destruct (p <? 0) eqn:E; [lia | reflexivity].
Qed.

Lemma memory_Read_end (d : list Z) (p : Z) :
  Z.of_nat (length d) <= p ->
  ReadInto {| Sample.data := d; Sample.pos := p |} (replicate 16 0) =
    ({| Sample.data := d; Sample.pos := p |}, (replicate 16 0, 0, Some EOF)).
Proof.
  intros Hp. cbn [ReadInto Sample.memory_source]. unfold Sample.memoryRead.
  cbn [Sample.pos Sample.data].
  destruct (Z.of_nat (length d) <=? p) eqn:E; [reflexivity | lia].
Qed.

Lemma memory_Read_some (d : list Z) (p : Z) :
  0 <= p < Z.of_nat (length d) ->
  exists buf,
    ReadInto {| Sample.data := d; Sample.pos := p |} (replicate 16 0) =
      ({| Sample.data := d;
          Sample.pos := p + Z.min 16 (Z.of_nat (length d) - p) |},
       (buf, Z.min 16 (Z.of_nat (length d) - p), None)).
Proof.
  intros Hp. cbn [ReadInto Sample.memory_source]. unfold Sample.memoryRead.
  cbn [Sample.pos Sample.data].
  destruct (Z.of_nat (length d) <=? p) eqn:E; [lia|].
  rewrite length_replicate.
  assert (Hlen : Z.of_nat (length (take 16 (drop (Z.to_nat p) d))) =
                 Z.min 16 (Z.of_nat (length d) - p)).
  { rewrite length_take, length_drop. lia. }
  rewrite Hlen. eexists. reflexivity.
Qed.

(** The loop over an in-memory source, from any position [p] and any
    count [c] of bytes read so far. *)
Lemma dump_memory_from (limit : Z) (d : list Z) (fuel : nat) :
  forall (rd : Reader Sample.memory) (p : Z) (printed : list string),
    configured rd ->
    r rd = {| Sample.data := d; Sample.pos := p |} ->
    0 <= p <= Z.of_nat (length d) ->
    0 <= ReadBytes rd ->
    ReadBytes rd + (Z.of_nat (length d) - p) < 2 ^ 64 ->
    records (Z.of_nat (length d) - p) < Z.of_nat fuel ->
    let m := Z.of_nat (length d) - p in
    let k :=
      if m =? 0 then 0
      else if 0 <? limit then records (Z.min (Z.max (limit - ReadBytes rd) 1) m)
      else records m in
    exists rd' lines,
      dump asciiByteToChar fuel rd limit printed =
        Some (rd', (printed ++ lines)%list, Break) /\
      Z.of_nat (length lines) = k /\
      ReadBytes rd' = ReadBytes rd + Z.min (16 * k) m /\
      sameConfiguration rd rd'.
Proof.
  induction fuel as [|fuel IH]; intros rd p printed Hc Hr Hp Hc0 Hsum Hfuel m k;
    unfold records in *.
  { exfalso. assert (0 <= (Z.of_nat (length d) - p + 15) / 16)
      by (apply Z.div_pos; lia). lia. }
  cbn [dump].
  pose proof (memory_Seek d p ltac:(lia)) as Hseek. rewrite <- Hr in Hseek at 1.
  destruct (decide (m = 0)) as [Hm|Hm].
  - (* end of the data: the read reports EOF *)
    pose proof (memory_Read_end d p ltac:(lia)) as Hread.
    destruct (Read_read_error asciiByteToChar rd _ _ _ _ _ _ Hc Hseek Hread)
      as [ws HRead].
    rewrite HRead. cbn [mbind option_bind].
    eexists _, []. rewrite app_nil_r. split; [reflexivity|].
    subst k. replace (m =? 0) with true by (symmetry; apply Z.eqb_eq; exact Hm).
    split; [reflexivity|]. split; [cbn; lia | repeat split].
  - destruct (memory_Read_some d p ltac:(lia)) as [buf Hread].
    destruct (Read_success asciiByteToChar rd _ _ _ _ _ Hc Hseek Hread)
      as (l & rt & rd1 & HRead & Hr1 & Hcount & _ & Hc1).
    rewrite HRead. cbn [mbind option_bind].
    fold m in Hcount, Hr1.
    assert (Hrb : Z.min 16 m = Z.min 16 m) by reflexivity.
    set (rb := Z.min 16 m) in *.
    rewrite Z.mod_small in Hcount by lia.
    assert (Hsame1 : sameConfiguration rd rd1).
    { destruct (Read_writes asciiByteToChar rd rd1 _ HRead) as (s1 & n1 & w1 & ->).
      repeat split. }
    subst k. replace (m =? 0) with false by (symmetry; apply Z.eqb_neq; exact Hm).
    destruct ((0 <? limit) && (limit <=? ReadBytes rd1)) eqn:Hstop.
    + (* the limit is reached *)
      apply andb_true_iff in Hstop as [Hl1 Hl2].
      exists rd1, [flatten (sb rd1)]. split; [reflexivity|].
      rewrite Hl1. rewrite Hcount in *.
      assert (Hk : (Z.min (Z.max (limit - ReadBytes rd) 1) m + 15) / 16 = 1).
      { Z.to_euclidean_division_equations. lia. }
      rewrite Hk. split; [reflexivity|]. split; [lia | exact Hsame1].
    + (* one more record *)
      destruct (IH rd1 (p + rb) (printed ++ [flatten (sb rd1)])%list Hc1 Hr1)
        as (rd' & lines & Hdump & Hlen & Hbytes & Hsame); try lia.
      { subst rb m. Z.to_euclidean_division_equations. lia. }
      exists rd', (flatten (sb rd1) :: lines).
      split; [rewrite Hdump, <- app_assoc; reflexivity|].
      cbn [length]. rewrite Nat2Z.inj_succ, Hlen, Hbytes, Hcount.
      replace (Z.of_nat (length d) - (p + rb)) with (m - rb) by lia.
      assert (Hsame' : sameConfiguration rd rd').
      { destruct Hsame1 as (? & ? & ? & ? & ? & ? & ? & ? & ? & ?).
        destruct Hsame as (? & ? & ? & ? & ? & ? & ? & ? & ? & ?).
        repeat split; congruence. }
      apply andb_false_iff in Hstop.
      destruct (m - rb =? 0) eqn:Em, (0 <? limit) eqn:El.
      * split; [|split; [|exact Hsame']];
          Z.to_euclidean_division_equations; lia.
      * split; [|split; [|exact Hsame']];
          Z.to_euclidean_division_equations; lia.
      * split; [|split; [|exact Hsame']];
          Z.to_euclidean_division_equations; lia.
      * split; [|split; [|exact Hsame']];
          Z.to_euclidean_division_equations; lia.
Qed.

End Dump.

(** ** Percentages *)

Section Float.

Lemma shr_1_div2 (mrs : shr_record) :
  0 <= shr_m mrs -> shr_m (shr_1 mrs) = shr_m mrs / 2.
Proof.
  destruct mrs as [m rr ss]. cbn [shr_m]. intros Hm.
  destruct m as [|[q|q|]|q]; cbn [shr_1 shr_m]; try lia.
  - reflexivity.
  - rewrite Pos2Z.inj_xI. Z.to_euclidean_division_equations. lia.
  - rewrite Pos2Z.inj_xO. Z.to_euclidean_division_equations. lia.
  - reflexivity.
Qed.

(** Shifting right [n] times divides the mantissa by [2^n]. *)
Lemma shr_m_iter_pos (n : positive) :
  forall mrs, 0 <= shr_m mrs ->
    shr_m (SpecFloat.iter_pos shr_1 n mrs) = shr_m mrs / 2 ^ Z.pos n.
Proof.
  induction n as [n IH|n IH|]; intros mrs Hm; cbn [SpecFloat.iter_pos].
  - assert (H1 : 0 <= shr_m (shr_1 mrs)).
    { rewrite shr_1_div2 by assumption. apply Z.div_pos; lia. }
    assert (H2 : 0 <= shr_m (SpecFloat.iter_pos shr_1 n (shr_1 mrs))).
    { rewrite IH by assumption. apply Z.div_pos; [assumption|].
      apply Z.pow_pos_nonneg; lia. }
    rewrite IH, IH, shr_1_div2 by assumption.
    rewrite !Z.div_div by (try apply Z.pow_pos_nonneg; lia).
    f_equal. rewrite Pos2Z.inj_xI.
    replace (2 * Z.pos n + 1) with (1 + Z.pos n + Z.pos n) by lia.
    rewrite !Z.pow_add_r by lia. rewrite Z.pow_1_r. lia.
  - assert (H2 : 0 <= shr_m (SpecFloat.iter_pos shr_1 n mrs)).
    { rewrite IH by assumption. apply Z.div_pos; [assumption|].
      apply Z.pow_pos_nonneg; lia. }
    rewrite IH, IH by assumption.
    rewrite !Z.div_div by (try apply Z.pow_pos_nonneg; lia).
    rewrite <- Z.pow_add_r by lia. do 2 f_equal. lia.
  - rewrite shr_1_div2 by assumption. reflexivity.
Qed.

Lemma digits2_pos_bounds (p : positive) :
  2 ^ (Z.pos (digits2_pos p) - 1) <= Z.pos p < 2 ^ Z.pos (digits2_pos p).
Proof.
  induction p as [p IH|p IH|]; cbn [digits2_pos].
  - rewrite Pos2Z.inj_succ.
    replace (Z.succ (Z.pos (digits2_pos p)) - 1)
      with (Z.succ (Z.pos (digits2_pos p) - 1)) by lia.
    rewrite !Z.pow_succ_r by lia. lia.
  - rewrite Pos2Z.inj_succ.
    replace (Z.succ (Z.pos (digits2_pos p)) - 1)
      with (Z.succ (Z.pos (digits2_pos p) - 1)) by lia.
    rewrite !Z.pow_succ_r by lia. lia.
  - cbn. lia.
Qed.

(** Rounding a positive mantissa at an exponent that is not below the
    least one leaves a positive mantissa and does not lower the exponent. *)
Lemma shr_fexp_positive (m : positive) (e : Z) (l : location) :
  -1074 <= e ->
  0 < shr_m (fst (shr_fexp 53 1024 (Z.pos m) e l)) /\
  e <= snd (shr_fexp 53 1024 (Z.pos m) e l).
Proof.
  intros He. unfold shr_fexp, shr, fexp, emin. cbn [Zdigits2].
  assert (Hm0 : shr_m (shr_record_of_loc (Z.pos m) l) = Z.pos m)
    by (destruct l as [|[]]; reflexivity).
  destruct (Z.max (Z.pos (digits2_pos m) + e - 53) (3 - 1024 - 53) - e)
    as [|n|n] eqn:En; cbn [fst snd]; try (rewrite Hm0; lia).
  rewrite shr_m_iter_pos by (rewrite Hm0; lia). rewrite Hm0.
  pose proof (digits2_pos_bounds m) as [Hlo _].
  assert (Hn : Z.pos n = Z.pos (digits2_pos m) - 53) by lia.
  split; [|lia].
  apply Z.div_str_pos. split; [apply Z.pow_pos_nonneg; lia|].
  apply Z.le_trans with (2 ^ (Z.pos (digits2_pos m) - 1)); [|exact Hlo].
  apply Z.pow_le_mono_r; lia.
Qed.

Lemma round_nearest_even_positive (m : Z) (l : location) :
  0 < m -> 0 < round_nearest_even m l.
Proof.
  intros Hm. unfold round_nearest_even.
  destruct l as [|[]]; try destruct (Z.even m); lia.
Qed.

(** So the result is a finite number or an infinity of the given sign. *)
Lemma binary_round_aux_positive (s : bool) (m : positive) (e : Z) (l : location) :
  -1074 <= e ->
  (exists m' e', binary_round_aux 53 1024 s (Z.pos m) e l = S754_finite s m' e' /\
                 e <= e') \/
  binary_round_aux 53 1024 s (Z.pos m) e l = S754_infinity s.
Proof.
  intros He. unfold binary_round_aux.
  pose proof (shr_fexp_positive m e l He) as [Hm1 He1].
  destruct (shr_fexp 53 1024 (Z.pos m) e l) as [mrs1 e1]. cbn [fst snd] in *.
  pose proof (round_nearest_even_positive (shr_m mrs1) (loc_of_shr_record mrs1) Hm1)
    as Hr.
  destruct (round_nearest_even (shr_m mrs1) (loc_of_shr_record mrs1))
    as [|m1|m1]; try lia.
  pose proof (shr_fexp_positive m1 e1 loc_Exact ltac:(lia)) as [Hm2 He2].
  destruct (shr_fexp 53 1024 (Z.pos m1) e1 loc_Exact) as [mrs2 e2].
  cbn [fst snd] in *.
  destruct (shr_m mrs2) as [|m2|m2]; try lia.
  destruct (e2 <=? 1024 - 53); [left | right; reflexivity].
  exists m2, e2. split; [reflexivity | lia].
Qed.

(** [float64(v)] of a nonzero integer is finite or infinite, with the
    sign of [v]. *)
Lemma float64_of_int_nonzero (v : Z) :
  v <> 0 ->
  (exists m e, Fmt.float64_of_int v = S754_finite (v <? 0) m e /\ -52 <= e) \/
  Fmt.float64_of_int v = S754_infinity (v <? 0).
Proof.
  intros Hv. unfold Fmt.float64_of_int, binary_normalize.
  assert (Hround : forall s p,
            (exists m e, binary_round 53 1024 s p 0 = S754_finite s m e /\ -52 <= e) \/
            binary_round 53 1024 s p 0 = S754_infinity s).
  { intros s p. unfold binary_round, shl_align, fexp, emin.
    pose proof (Pos2Z.is_pos (digits2_pos p)) as Hd.
    destruct (Z.max (Z.pos (digits2_pos p) + 0 - 53) (3 - 1024 - 53) - 0)
      as [|n|n] eqn:En.
    - destruct (binary_round_aux_positive s p 0 loc_Exact ltac:(lia))
        as [(m & e & Heq & He) | Heq]; [left | right; exact Heq].
      exists m, e. split; [exact Heq | lia].
    - destruct (binary_round_aux_positive s p 0 loc_Exact ltac:(lia))
        as [(m & e & Heq & He) | Heq]; [left | right; exact Heq].
      exists m, e. split; [exact Heq | lia].
    - destruct (binary_round_aux_positive s (Pos.iter xO p n)
                  (Z.max (Z.pos (digits2_pos p) + 0 - 53) (3 - 1024 - 53))
                  loc_Exact ltac:(lia))
        as [(m & e & Heq & He) | Heq]; [left | right; exact Heq].
      exists m, e. split; [exact Heq | lia]. }
  destruct v as [|p|p]; [contradiction | apply Hround | apply Hround].
Qed.

(** Times 100 and divided by the float zero: an infinity of that sign. *)
Lemma percent_of_nonzero_by_zero (v : Z) :
  v <> 0 ->
  Fmt.float64_div
    (Fmt.float64_mul (Fmt.float64_of_int v) (Fmt.float64_of_int 100))
    (S754_zero false) = S754_infinity (v <? 0).
Proof.
  intros Hv.
  change (Fmt.float64_of_int 100) with (S754_finite false 7036874417766400 (-46)).
  destruct (float64_of_int_nonzero v Hv) as [(m & e & -> & He) | ->].
  - unfold Fmt.float64_mul, SFmul.
    destruct (binary_round_aux_positive (xorb (v <? 0) false)
                (m * 7036874417766400) (e + -46) loc_Exact ltac:(lia))
      as [(m' & e' & -> & _) | ->];
      cbn [Fmt.float64_div SFdiv]; destruct (v <? 0); reflexivity.
  - cbn. destruct (v <? 0); reflexivity.
Qed.

End Float.

Section Percent.

Context `{ColorPackage} {S : Type} `{ReadSeekerCloser S}.

Lemma offsetText_percent (rd : Reader S) (offset : Z) :
  offsetFormatterFormat rd !! OffsetPercent = Some "%07.3f%%" ->
  offsetText rd OffsetPercent offset =
    Some ((Fmt.fmtFloat 7 3
             (Fmt.float64_div
                (Fmt.float64_mul (Fmt.float64_of_int offset) (Fmt.float64_of_int 100))
                (Fmt.float64_of_int (fileSize rd))) ++ "%") ++ "").
Proof.
  intros Hfmt. unfold offsetText, formatOffset.
  change (offsetFormatterFormat (sbReset rd)) with (offsetFormatterFormat rd).
  change (fileSize (sbReset rd)) with (fileSize rd).
  rewrite Hfmt. reflexivity.
Qed.

(** X9. With a total size of 0 the percent offset is the same text for
    all offsets of one sign: NaN at position 0, plus infinity at every
    position after it and minus infinity at a negative one, each padded
    with spaces to 7 characters before the percent sign. *)
Theorem percent_of_size_zero (rd : Reader S) (offset : Z) :
  fileSize rd = 0 ->
  offsetFormatterFormat rd !! OffsetPercent = Some "%07.3f%%" ->
  offsetText rd OffsetPercent offset =
    Some (if offset =? 0 then "    NaN%"
          else if 0 <? offset then "   +Inf%" else "   -Inf%").
Proof.
  intros Hsize Hfmt. rewrite (offsetText_percent rd offset Hfmt), Hsize.
  change (Fmt.float64_of_int 0) with (S754_zero false).
  destruct (offset =? 0) eqn:E0.
  - apply Z.eqb_eq in E0. subst offset. reflexivity.
  - apply Z.eqb_neq in E0. rewrite (percent_of_nonzero_by_zero offset E0).
    destruct (0 <? offset) eqn:Epos.
    + replace (offset <? 0) with false by lia. reflexivity.
    + replace (offset <? 0) with true by lia. reflexivity.
Qed.

(** X10. For a file of known size, at least one byte, a reader made by
    [New] with the percent formatter shows position 0 as [000.000%]. *)
Theorem percent_at_start (src : S) (offsets : list OffsetFormatter)
    (views : list ByteFormatter) (pal : list AnsiColor) (show : bool)
    (filesize : Z) :
  0 < filesize ->
  OffsetPercent ∈ offsets ->
  exists rd,
    New src offsets (Some views) pal show filesize = Returns rd /\
    offsetText rd OffsetPercent 0 = Some "000.000%".
Proof.
  intros Hsize Hin.
  destruct (New_returns src offsets views pal show filesize)
    as (rd & Hnew & _ & _ & _ & _ & _ & Hfs & _ & _ & Hinv & Hall).
  exists rd. split; [exact Hnew|].
  destruct (Hall OffsetPercent Hin) as [w Hw].
  destruct (Hinv OffsetPercent w Hw) as [_ Hfmt].
  rewrite (offsetText_percent rd 0 Hfmt), Hfs.
  change (Fmt.float64_mul (Fmt.float64_of_int 0) (Fmt.float64_of_int 100))
    with (S754_zero false).
  destruct (float64_of_int_nonzero filesize ltac:(lia)) as [(m & e & -> & _) | ->];
    replace (filesize <? 0) with false by lia; reflexivity.
Qed.

End Percent.

Section DumpMemory.

Context `{ColorPackage}.
Variable asciiByteToChar : Z -> Z.

(** X11. The dump loop of [main] over an in-memory source of [n] bytes
    left, starting with a counter of 0: without a limit it prints one
    line for every 16 bytes or part of them and stops at the end of the
    data; with a limit it stops after the record in which the counter
    reaches the limit, so the bytes shown are the limit rounded up to a
    multiple of 16, or all the data when there is less.  The loop ends by
    [break], and the reader has read exactly the bytes shown. *)
Theorem dump_memory (rd : Reader Sample.memory) (d : list Z) (p limit : Z)
    (fuel : nat) :
  configured rd ->
  r rd = {| Sample.data := d; Sample.pos := p |} ->
  ReadBytes rd = 0 ->
  0 <= p <= Z.of_nat (length d) ->
  Z.of_nat (length d) < 2 ^ 63 ->
  0 <= limit ->
  records (Z.of_nat (length d) - p) < Z.of_nat fuel ->
  let n := Z.of_nat (length d) - p in
  let shown := if 0 <? limit then Z.min limit n else n in
  exists rd' lines,
    dump asciiByteToChar fuel rd limit [] = Some (rd', lines, Break) /\
    Z.of_nat (length lines) = records shown /\
    ReadBytes rd' = Z.min (16 * records shown) n /\
    sameConfiguration rd rd'.
Proof.
  intros Hc Hr Hzero Hp Hlen Hlimit Hfuel n shown.
  assert (H263 : 2 ^ 63 < 2 ^ 64) by (apply Z.pow_lt_mono_r; lia).
  destruct (dump_memory_from asciiByteToChar limit d fuel rd p [] Hc Hr Hp)
    as (rd' & lines & Hdump & Hlines & Hbytes & Hsame); try lia.
  exists rd', lines. split; [exact Hdump|].
  rewrite Hzero in Hlines, Hbytes. fold n in Hlines, Hbytes, Hfuel.
  assert (Hk : (if n =? 0 then 0
                else if 0 <? limit then records (Z.min (Z.max (limit - 0) 1) n)
                     else records n) = records shown).
  { subst shown. unfold records.
    destruct (n =? 0) eqn:En, (0 <? limit) eqn:El;
      try (f_equal; lia); Z.to_euclidean_division_equations; lia. }
  rewrite Hk in Hlines, Hbytes.
  split; [exact Hlines|]. split; [lia | exact Hsame].
Qed.

End DumpMemory.

(** ** The header line *)

Section HeaderLine.

Context `{ColorPackage} {S : Type} `{ReadSeekerCloser S}.

Lemma headerBlock_labels (f : ByteFormatter) :
  headerBlock f = Some (headerLabels f).
Proof. destruct f; vm_compute; reflexivity. Qed.

Lemma header_blocks_from (rd : Reader S) (fs : list ByteFormatter) :
  forall (k : nat) (acc : string),
    charFormatterCount rd = Z.of_nat k + Z.of_nat (length fs) ->
    fold_left
      (fun out '(didx, dplay) =>
         out ← out;
         h ← headerBlock dplay;
         Some (out ++ offsetBreak (rcolors rd) ++ h ++
               (if Z.of_nat didx <? charFormatterCount rd - 1
                then splitterBreak (rcolors rd) ++ Splitter rd else "")))
      (imap (fun didx f => ((k + didx)%nat, f)) fs) (Some acc) =
    Some (acc ++
          joinWith (splitterBreak (rcolors rd) ++ Splitter rd)
            ((fun f => offsetBreak (rcolors rd) ++ headerLabels f) <$> fs)).
Proof.
  induction fs as [|f fs IH]; intros k acc Hcount.
  - cbn. rewrite string_app_nil_r. reflexivity.
  - rewrite imap_cons. cbn [fold_left]. rewrite Nat.add_0_r.
    rewrite headerBlock_labels. cbn [mbind option_bind].
    cbn [length] in Hcount.
    erewrite imap_ext; [rewrite (IH (Datatypes.S k))|]; cycle 1.
    { cbn [length] in Hcount. lia. }
    { intros i x _. unfold compose.
      replace (k + Datatypes.S i)%nat with (Datatypes.S k + i)%nat by lia.
      reflexivity. }
    f_equal. destruct fs as [|f' fs].
    + destruct (Z.of_nat k <? charFormatterCount rd - 1) eqn:E;
        [cbn [length] in Hcount; lia|].
      cbn. rewrite !string_app_nil_r. reflexivity.
    + destruct (Z.of_nat k <? charFormatterCount rd - 1) eqn:E;
        [|cbn [length] in Hcount; lia].
      cbn [fmap list_fmap joinWith]. rewrite !string_app_assoc. reflexivity.
Qed.

(** X12. [Header] is empty when headers are off.  Otherwise, for a
    configured reader whose count of byte formatters is the length of
    their list, it is one line built like a line of data: underscores as
    wide as the left offset, with color and splitter, when there is an
    offset formatter; for each byte formatter the offset color and its
    labels, with the colored splitter between two formatters; the
    splitter and the underscores of the right offset when there is a
    second offset formatter; and a newline. *)
Theorem Header_line (rd : Reader S) :
  configured rd ->
  charFormatterCount rd = Z.of_nat (length (charFormatters rd)) ->
  Header rd =
    Some (if showHeader rd then
            (if 0 <? offsetFormatterCount rd
             then offsetBreak (rcolors rd) ++
                  offsetHeader rd (default OffsetHex (offsetFormatter rd !! 0%nat)) ++
                  splitterBreak (rcolors rd) ++ Splitter rd
             else "") ++
            joinWith (splitterBreak (rcolors rd) ++ Splitter rd)
              ((fun f => offsetBreak (rcolors rd) ++ headerLabels f) <$>
               charFormatters rd) ++
            (if 1 <? offsetFormatterCount rd
             then splitterBreak (rcolors rd) ++ Splitter rd ++
                  offsetBreak (rcolors rd) ++
                  offsetHeader rd (default OffsetHex (offsetFormatter rd !! 1%nat))
             else "") ++
            String "010"%char ""
          else "").
Proof.
  intros Hc Hcount. unfold Header.
  destruct (showHeader rd); [|reflexivity]. cbn [negb].
  assert (Hleft : exists t,
            (if 0 <? offsetFormatterCount rd
             then f ← offsetFormatter rd !! 0%nat;
                  Some (offsetBreak (rcolors rd) ++ offsetHeader rd f ++
                        splitterBreak (rcolors rd) ++ Splitter rd)
             else Some "") = Some t /\
            t = (if 0 <? offsetFormatterCount rd
                 then offsetBreak (rcolors rd) ++
                      offsetHeader rd (default OffsetHex (offsetFormatter rd !! 0%nat)) ++
                      splitterBreak (rcolors rd) ++ Splitter rd
                 else "")).
  { destruct (0 <? offsetFormatterCount rd) eqn:E; [|eexists; split; reflexivity].
    destruct (configured_lookup rd 0 Hc) as (f & Hf & _); [lia|].
    rewrite Hf. eexists. split; reflexivity. }
  destruct Hleft as (left & -> & Hleft).
  assert (Hright : exists t,
            (if 1 <? offsetFormatterCount rd
             then f ← offsetFormatter rd !! 1%nat;
                  Some (splitterBreak (rcolors rd) ++ Splitter rd ++
                        offsetBreak (rcolors rd) ++ offsetHeader rd f)
             else Some "") = Some t /\
            t = (if 1 <? offsetFormatterCount rd
                 then splitterBreak (rcolors rd) ++ Splitter rd ++
                      offsetBreak (rcolors rd) ++
                      offsetHeader rd (default OffsetHex (offsetFormatter rd !! 1%nat))
                 else "")).
  { destruct (1 <? offsetFormatterCount rd) eqn:E; [|eexists; split; reflexivity].
    destruct (configured_lookup rd 1 Hc) as (f & Hf & _); [lia|].
    rewrite Hf. eexists. split; reflexivity. }
  destruct Hright as (right & -> & Hright).
  cbn [mbind option_bind].
  pose proof (header_blocks_from rd (charFormatters rd) 0 left
                ltac:(rewrite Hcount; lia)) as Hbody.
  cbn [Nat.add] in Hbody.
  change (imap (fun didx f => (didx, f)) (charFormatters rd))
    with (imap pair (charFormatters rd)) in Hbody.
  rewrite Hbody. cbn [mbind option_bind].
  rewrite <- Hleft, <- Hright, !string_app_assoc. reflexivity.
Qed.

End HeaderLine.

(** ** The further properties at concrete readers *)

Section MoreInstances.

Lemma offset_column_width_witness :
  0 <= 4096 < 2 ^ 63 /\ 0 <= 4095 < 2 ^ 63 /\
  OffsetHex ∈ [OffsetHex; OffsetDec] /\ OffsetHex <> OffsetPercent /\
  exists rd s,
    New {| Sample.data := []; Sample.pos := 0 |} [OffsetHex; OffsetDec]
        (Some [ViewHex]) Sample.greys true 4096 = Returns rd /\
    offsetText rd OffsetHex 4095 = Some s /\
    Z.of_nat (String.length s) = hexDigits 4096.
Proof.
  assert (Hin : OffsetHex ∈ [OffsetHex; OffsetDec]) by apply list_elem_of_here.
  assert (Hr : forall n, 0 <= n -> n < 2 ^ 63 -> 0 <= n < 2 ^ 63) by (intros; split; assumption).
  split; [apply Hr; [discriminate | reflexivity]|].
  split; [apply Hr; [discriminate | reflexivity]|].
  split; [exact Hin|]. split; [discriminate|].
  destruct (offset_column_width {| Sample.data := []; Sample.pos := 0 |}
              [OffsetHex; OffsetDec] [ViewHex] Sample.greys true 4096 OffsetHex 4095
              (Hr 4096 ltac:(discriminate) eq_refl)
              (Hr 4095 ltac:(discriminate) eq_refl) Hin ltac:(discriminate))
    as (rd & s & Hnew & Htext & _ & _ & _ & Hhex).
  exists rd, s. split; [exact Hnew|]. split; [exact Htext|].
  apply Hhex; [reflexivity | discriminate].
Defined.

Lemma header_as_wide_as_rows_witness :
  Forall (fun b => 0 <= b < 256) Sample.sevens /\
  withASCII ViewHex = false /\
  (ViewHex <> ViewBit \/ 16 <= 3) /\
  exists labels,
    headerBlock ViewHex = Some labels /\
    Fmt.RuneCount labels = rowWidth ViewHex /\
    textWidth (columns ≫= column Sample.dots (Sample.reader [7; 7; 7] [] [ViewHex])
                            ViewHex 3 Sample.sevens) = rowWidth ViewHex.
Proof.
  assert (Hall : Forall (fun b => 0 <= b < 256) Sample.sevens).
  { unfold Sample.sevens.
    repeat first [apply List.Forall_nil | apply List.Forall_cons; [lia|]]. }
  split; [exact Hall|]. split; [reflexivity|].
  split; [left; discriminate|].
  apply (header_as_wide_as_rows Sample.dots (Sample.reader [7; 7; 7] [] [ViewHex])
           ViewHex 3 Sample.sevens Hall eq_refl).
  left. discriminate.
Defined.

Lemma Read_keeps_configuration_witness :
  exists rd' res,
    Read Sample.dots (Sample.reader [1; 2; 3; 4; 5] [OffsetHex] [ViewHex]) =
      Some (rd', res) /\
    sameConfiguration (Sample.reader [1; 2; 3; 4; 5] [OffsetHex] [ViewHex]) rd'.
Proof.
  assert (Hseek :
    Seek (r (Sample.reader [1; 2; 3; 4; 5] [OffsetHex] [ViewHex])) 0 SeekCurrent =
      ({| Sample.data := [1; 2; 3; 4; 5]; Sample.pos := 0 |}, (0, None)))
    by reflexivity.
  assert (Hread :
    ReadInto {| Sample.data := [1; 2; 3; 4; 5]; Sample.pos := 0 |} (replicate 16 0) =
      ({| Sample.data := [1; 2; 3; 4; 5]; Sample.pos := 5 |},
       ([1; 2; 3; 4; 5; 0; 0; 0; 0; 0; 0; 0; 0; 0; 0; 0], 5, None)))
    by reflexivity.
  destruct (Read_success Sample.dots
              (Sample.reader [1; 2; 3; 4; 5] [OffsetHex] [ViewHex])
              _ _ _ _ _ (configured_over _ _ _ _) Hseek Hread)
    as (l & rt & rd' & HRead & _).
  exists rd', (flatten (sb rd'), None). split; [exact HRead|].
  apply (Read_keeps_configuration Sample.dots
           (Sample.reader [1; 2; 3; 4; 5] [OffsetHex] [ViewHex]) rd' _ HRead).
Defined.

Lemma blocks_between_witness :
  charFormatterCount (Sample.reader [7; 7; 7] [] [ViewHex; ViewASCII]) =
    Z.of_nat (length (charFormatters (Sample.reader [7; 7; 7] [] [ViewHex; ViewASCII]))) /\
  blocks Sample.dots (Sample.reader [7; 7; 7] [] [ViewHex; ViewASCII]) 3 Sample.sevens =
    between
      [WColor (splitterBreak (rcolors (Sample.reader [7; 7; 7] [] [ViewHex; ViewASCII])));
       WText (Splitter (Sample.reader [7; 7; 7] [] [ViewHex; ViewASCII]))]
      ((fun f => columns ≫= column Sample.dots
                               (Sample.reader [7; 7; 7] [] [ViewHex; ViewASCII])
                               f 3 Sample.sevens) <$>
       charFormatters (Sample.reader [7; 7; 7] [] [ViewHex; ViewASCII])).
Proof.
  split; [reflexivity|].
  apply (blocks_between Sample.dots (Sample.reader [7; 7; 7] [] [ViewHex; ViewASCII])
           3 Sample.sevens).
  reflexivity.
Defined.

Lemma Read_line_witness :
  configured (Sample.reader [1; 2; 3; 4; 5] [OffsetHex] [ViewHex]) /\
  Seek (r (Sample.reader [1; 2; 3; 4; 5] [OffsetHex] [ViewHex])) 0 SeekCurrent =
    ({| Sample.data := [1; 2; 3; 4; 5]; Sample.pos := 0 |}, (0, None)) /\
  ReadInto {| Sample.data := [1; 2; 3; 4; 5]; Sample.pos := 0 |} (replicate 16 0) =
    ({| Sample.data := [1; 2; 3; 4; 5]; Sample.pos := 5 |},
     ([1; 2; 3; 4; 5; 0; 0; 0; 0; 0; 0; 0; 0; 0; 0; 0], 5, None)) /\
  exists rd' line,
    Read Sample.dots (Sample.reader [1; 2; 3; 4; 5] [OffsetHex] [ViewHex]) =
      Some (rd', (line, None)).
Proof.
  split; [apply configured_over|].
  assert (Hseek :
    Seek (r (Sample.reader [1; 2; 3; 4; 5] [OffsetHex] [ViewHex])) 0 SeekCurrent =
      ({| Sample.data := [1; 2; 3; 4; 5]; Sample.pos := 0 |}, (0, None)))
    by reflexivity.
  assert (Hread :
    ReadInto {| Sample.data := [1; 2; 3; 4; 5]; Sample.pos := 0 |} (replicate 16 0) =
      ({| Sample.data := [1; 2; 3; 4; 5]; Sample.pos := 5 |},
       ([1; 2; 3; 4; 5; 0; 0; 0; 0; 0; 0; 0; 0; 0; 0; 0], 5, None)))
    by reflexivity.
  split; [exact Hseek|]. split; [exact Hread|].
  destruct (Read_line Sample.dots (Sample.reader [1; 2; 3; 4; 5] [OffsetHex] [ViewHex])
              _ _ _ _ _ (configured_over _ _ _ _) Hseek Hread) as [rd' HRead].
  eexists rd', _. exact HRead.
Defined.

Lemma percent_of_size_zero_witness :
  fileSize (Sample.streaming [1; 2; 3] [OffsetPercent] [ViewHex]) = 0 /\
  offsetFormatterFormat (Sample.streaming [1; 2; 3] [OffsetPercent] [ViewHex])
    !! OffsetPercent = Some "%07.3f%%" /\
  offsetText (Sample.streaming [1; 2; 3] [OffsetPercent] [ViewHex]) OffsetPercent 32 =
    Some "   +Inf%".
Proof.
  split; [reflexivity | split; [reflexivity|]].
  exact (percent_of_size_zero
           (Sample.streaming [1; 2; 3] [OffsetPercent] [ViewHex]) 32 eq_refl eq_refl).
Defined.

Lemma percent_at_start_witness :
  0 < 3 /\ OffsetPercent ∈ [OffsetPercent] /\
  exists rd,
    New {| Sample.data := [1; 2; 3]; Sample.pos := 0 |} [OffsetPercent]
        (Some [ViewHex]) Sample.greys true 3 = Returns rd /\
    offsetText rd OffsetPercent 0 = Some "000.000%".
Proof.
  assert (Hin : OffsetPercent ∈ [OffsetPercent]) by apply list_elem_of_here.
  split; [reflexivity|]. split; [exact Hin|].
  apply (percent_at_start {| Sample.data := [1; 2; 3]; Sample.pos := 0 |}
           [OffsetPercent] [ViewHex] Sample.greys true 3); [reflexivity | exact Hin].
Defined.

Lemma dump_memory_witness :
  configured (Sample.reader (replicate 20 65) [] [ViewHex]) /\
  r (Sample.reader (replicate 20 65) [] [ViewHex]) =
    {| Sample.data := replicate 20 65; Sample.pos := 0 |} /\
  ReadBytes (Sample.reader (replicate 20 65) [] [ViewHex]) = 0 /\
  0 <= 0 <= Z.of_nat (length (replicate 20 65)) /\
  Z.of_nat (length (replicate 20 65)) < 2 ^ 63 /\
  0 <= 16 /\
  records (Z.of_nat (length (replicate 20 65)) - 0) < Z.of_nat 5 /\
  exists rd' lines,
    dump Sample.dots 5 (Sample.reader (replicate 20 65) [] [ViewHex]) 16 [] =
      Some (rd', lines, Break) /\
    Z.of_nat (length lines) = 1 /\
    ReadBytes rd' = 16.
Proof.
  assert (Hp : 0 <= 0 <= Z.of_nat (length (replicate 20 65)))
    by (split; discriminate).
  split; [apply configured_over|]. split; [reflexivity|]. split; [reflexivity|].
  split; [exact Hp|]. split; [reflexivity|]. split; [discriminate|].
  split; [reflexivity|].
  destruct (dump_memory Sample.dots (Sample.reader (replicate 20 65) [] [ViewHex])
              (replicate 20 65) 0 16 5 (configured_over _ _ _ _) eq_refl eq_refl
              Hp eq_refl ltac:(discriminate) eq_refl)
    as (rd' & lines & Hdump & Hlines & Hbytes & _).
  exists rd', lines. split; [exact Hdump|]. split; [exact Hlines | exact Hbytes].
Defined.

Lemma Header_line_witness :
  configured (Sample.reader [] [OffsetHex] [ViewHex; ViewASCII]) /\
  charFormatterCount (Sample.reader [] [OffsetHex] [ViewHex; ViewASCII]) =
    Z.of_nat (length (charFormatters (Sample.reader [] [OffsetHex] [ViewHex; ViewASCII]))) /\
  exists line, Header (Sample.reader [] [OffsetHex] [ViewHex; ViewASCII]) = Some line.
Proof.
  split; [apply configured_over|]. split; [reflexivity|].
  eexists.
  apply (Header_line (Sample.reader [] [OffsetHex] [ViewHex; ViewASCII]));
    [apply configured_over | reflexivity].
Defined.

End MoreInstances.

(** ** The colors of a row *)

Section RowColors.

Context `{ColorPackage} {S : Type} `{ReadSeekerCloser S}.
Variable asciiByteToChar : Z -> Z.

Lemma colorsOf_column_plain (rd : Reader S) (f : ByteFormatter) (rb : Z)
    (tmp : list Z) (i : Z) :
  withASCII f = false -> i < rb ->
  colorsOf (column asciiByteToChar rd f rb tmp i) =
    if changed tmp i then [paletteAt rd (byteAt tmp i)] else [].
Proof.
  intros Hf Hi. rewrite column_present by assumption.
  rewrite !colorsOf_app, colorsOf_halfRow, colorsOf_writeColor, colorsOf_writeSpace.
  destruct f; try discriminate Hf; destruct (changed tmp i); reflexivity.
Qed.

Lemma changed_after (pre suf : list Z) (x : Z) :
  changed (pre ++ x :: suf) (Z.of_nat (length pre)) =
    negb (bool_decide (last pre = Some x)).
Proof.
  unfold changed, byteAt. rewrite Nat2Z.id, list_lookup_middle by reflexivity.
  cbn [default from_option id].
  destruct pre as [|y pre _] using rev_ind; [reflexivity|].
  rewrite last_snoc, length_app. cbn [length].
  replace (Z.of_nat (length pre + 1) =? 0) with false
    by (symmetry; apply Z.eqb_neq; lia).
  replace (0 <? Z.of_nat (length pre + 1)) with true
    by (symmetry; apply Z.ltb_lt; lia).
  replace (Z.to_nat (Z.of_nat (length pre + 1) - 1)) with (length pre) by lia.
  rewrite <- app_assoc. cbn [app]. rewrite list_lookup_middle by reflexivity.
  cbn [default from_option id orb andb].
  destruct (decide (y = x)) as [->|Hne].
  - rewrite Z.eqb_refl, bool_decide_eq_true_2 by reflexivity. reflexivity.
  - replace (x =? y) with false by (symmetry; apply Z.eqb_neq; congruence).
    rewrite bool_decide_eq_false_2 by congruence. reflexivity.
Qed.

Lemma row_colors_from (rd : Reader S) (f : ByteFormatter) (rb : Z) (suf : list Z) :
  withASCII f = false ->
  forall pre,
    Z.of_nat (length pre + length suf) <= rb ->
    colorsOf ((Z.of_nat <$> seq (length pre) (length suf)) ≫=
              column asciiByteToChar rd f rb (pre ++ suf)) =
      paletteAt rd <$> runs (last pre) suf.
Proof.
  intros Hf. induction suf as [|x suf IH]; intros pre Hlen; [reflexivity|].
  cbn [length seq fmap list_fmap runs]. rewrite bind_cons.
  cbn [length] in Hlen.
  rewrite colorsOf_app, colorsOf_column_plain by (assumption || lia).
  rewrite changed_after, fmap_app.
  specialize (IH (pre ++ [x])%list).
  rewrite length_app, last_snoc, <- app_assoc in IH. cbn [length app] in IH.
  replace (length pre + 1)%nat with (Datatypes.S (length pre)) in IH by lia.
  rewrite IH by lia. f_equal.
  unfold byteAt. rewrite Nat2Z.id, list_lookup_middle by reflexivity.
  cbn [default from_option id].
  destruct (decide (last pre = Some x)) as [Heq|Hne].
  - rewrite bool_decide_eq_true_2 by assumption. reflexivity.
  - rewrite bool_decide_eq_false_2 by assumption. reflexivity.
Qed.

(** X13. In a full record shown in hex, dec, oct, bit or ascii the colors
    written are, in order, the palette colors of the first byte of every
    run of equal bytes: one color for each run and none within a run. *)
Theorem row_colors (rd : Reader S) (f : ByteFormatter) (rb : Z) (tmp : list Z) :
  withASCII f = false ->
  length tmp = 16%nat ->
  16 <= rb ->
  colorsOf (columns ≫= column asciiByteToChar rd f rb tmp) =
    paletteAt rd <$> runs None tmp.
Proof.
  intros Hf Hlen Hrb.
  pose proof (row_colors_from rd f rb tmp Hf [] ltac:(cbn [length]; lia)) as Hrow.
  cbn [length app last] in Hrow. rewrite Hlen in Hrow. exact Hrow.
Qed.

End RowColors.

Lemma New_tables_witness :
  Forall (fun f => f ∈ [OffsetHex; OffsetDec; OffsetOct; OffsetPercent])
    [OffsetPercent; OffsetHex; OffsetPercent] /\
  exists rd,
    New {| Sample.data := [1; 2; 3]; Sample.pos := 0 |}
        [OffsetPercent; OffsetHex; OffsetPercent] (Some [ViewHex]) Sample.greys true 3 =
      Returns rd /\
    offsetFormatterCount rd = 3 /\
    offsetFormatterWidth rd !! OffsetPercent = Some 8 /\
    offsetFormatterWidth rd !! OffsetHex = Some 1 /\
    offsetFormatterWidth rd !! OffsetDec = None /\
    offsetFormatterFormat rd !! OffsetHex = Some "%01x".
Proof.
  assert (Hall : Forall (fun f => f ∈ [OffsetHex; OffsetDec; OffsetOct; OffsetPercent])
                   [OffsetPercent; OffsetHex; OffsetPercent]).
  { repeat first [apply List.Forall_nil | apply List.Forall_cons; [set_solver|]]. }
  split; [exact Hall|].
  destruct (New_tables {| Sample.data := [1; 2; 3]; Sample.pos := 0 |}
              [OffsetPercent; OffsetHex; OffsetPercent] [ViewHex] Sample.greys true 3 Hall)
    as (_ & rd & Hnew & _ & _ & Hcount & Hlook).
  exists rd. split; [exact Hnew|]. split; [exact Hcount|].
  split; [|split; [|split]].
  - destruct (Hlook OffsetPercent) as [-> _]. reflexivity.
  - destruct (Hlook OffsetHex) as [-> _]. reflexivity.
  - destruct (Hlook OffsetDec) as [-> _]. reflexivity.
  - destruct (Hlook OffsetHex) as [_ ->]. reflexivity.
Defined.

Lemma row_colors_witness :
  withASCII ViewHex = false /\ length Sample.fives = 16%nat /\ 16 <= 16 /\
  colorsOf (columns ≫= column Sample.dots (Sample.reader [5; 5; 5; 9] [] [ViewHex])
                          ViewHex 16 Sample.fives) =
    [paletteAt (Sample.reader [5; 5; 5; 9] [] [ViewHex]) 5;
     paletteAt (Sample.reader [5; 5; 5; 9] [] [ViewHex]) 9;
     paletteAt (Sample.reader [5; 5; 5; 9] [] [ViewHex]) 0].
Proof.
  split; [reflexivity|]. split; [reflexivity|]. split; [discriminate|].
  apply (row_colors Sample.dots (Sample.reader [5; 5; 5; 9] [] [ViewHex])
           ViewHex 16 Sample.fives); [reflexivity | reflexivity | discriminate].
Defined.
